(** * BackendERP: ledger, projection, guard, receipt and replay

    A shallow embedding of the inventory core of the repository:

    - [Models/InventoryTransaction.js]  (schema, [pre('validate')], [getSignedQty])
    - [Controllers/inventoryTransactionController.js]
    - [Controllers/medicationController.js]
    - [Controllers/purchaseOrderController.js]
    - [Middlewares/auth.js] and the middleware chains of [Routes/*.js]

    Conventions of the embedding.

    - A JavaScript [Number] holding a quantity, a cost or a date is an
      exact integer ([Z]); on integers the schema bound [min: 0.000001]
      reads [1 <= qty].
    - An [ObjectId] is a [nat]; [new Model(...)] draws its [_id] from a
      counter kept next to the collections.
    - A collection is the list of its documents in insertion order.
    - A request handler is a computation in the monad [M]: it threads the
      database and either answers with a payload or with an [Error]; the
      database it leaves behind is explicit in both cases.
    - [session.withTransaction] commits the writes of its callback or, when
      the callback throws, discards them.  A read issued inside the callback
      WITHOUT the session ([Model.aggregate(...)] with no [.session(...)])
      runs outside the transaction and sees the committed collections only;
      the callback therefore receives the committed snapshot as an argument.
    - Fields no property below depends on ([uom], [notes], [createdBy],
      monetary totals of an order, message texts of notifications) are left
      out of the records. *)

From Stdlib Require Import ZArith List String Bool Lia Permutation.
From Stdlib Require Import Sorting.Sorted.
Import ListNotations.
Local Open Scope string_scope.
Local Open Scope list_scope.
Local Open Scope Z_scope.

(* ================================================================== *)
(** * JavaScript helpers                                               *)
(* ================================================================== *)

Module JS.

(** [x || 0] on a number: [0] is the only falsy integer. *)
Definition orZero (x : Z) : Z := if x =? 0 then 0 else x.

(** [s || undefined] on an optional string: the empty string is falsy. *)
Definition truthyStr (s : option string) : option string :=
  match s with
  | Some "" => None
  | other => other
  end.

(** [!q] guards on an optional number: [undefined] and [0] are falsy. *)
Definition truthyNum (q : option Z) : option Z :=
  match q with
  | Some q' => if q' =? 0 then None else Some q'
  | None => None
  end.

(** A destructuring default [{ x = d }]: used when [x] is undefined. *)
Definition dflt {A} (d : A) (o : option A) : A :=
  match o with Some x => x | None => d end.

(** [a ?? b] *)
Definition nullish {A} (a : option A) (b : A) : A := dflt b a.

Definition isSome {A} (o : option A) : bool :=
  match o with Some _ => true | None => false end.

Definition optEqb {A} (eqb : A -> A -> bool) (a b : option A) : bool :=
  match a, b with
  | Some x, Some y => eqb x y
  | None, None => true
  | _, _ => false
  end.

(** [arr.includes(s)] on an array of strings. *)
Definition includes (arr : list string) (s : string) : bool :=
  existsb (String.eqb s) arr.

End JS.

(* ================================================================== *)
(** * Documents                                                        *)
(* ================================================================== *)

Definition ObjectId := nat.
Bind Scope nat_scope with ObjectId.
Definition Date := Z.

(** [TX_TYPES = ['IN', 'OUT', 'ADJUST']] *)
Inductive TxType := IN | OUT | ADJUST.

(** [adjustSign: enum ['IN', 'OUT']] *)
Inductive Sign := SignIN | SignOUT.

Definition TxType_eqb (a b : TxType) : bool :=
  match a, b with
  | IN, IN | OUT, OUT | ADJUST, ADJUST => true
  | _, _ => false
  end.

Definition Sign_eqb (a b : Sign) : bool :=
  match a, b with
  | SignIN, SignIN | SignOUT, SignOUT => true
  | _, _ => false
  end.

Definition REF_TYPES : list string :=
  ["PO"; "PO_RECEIPT"; "ISSUE"; "ADJ"; "XFER"; "OTHER"].

Definition REASONS : list string :=
  ["PURCHASE_RECEIPT"; "CONSUMPTION"; "RETURN_IN"; "RETURN_OUT";
   "ADJUST_POS"; "ADJUST_NEG"; "TRANSFER_IN"; "TRANSFER_OUT";
   "WRITE_OFF"; "OTHER"].

(** A document of the [InventoryTransaction] collection: one movement. *)
Record InventoryTransaction := mkTx {
  tx_id         : ObjectId;
  tx_hospital   : ObjectId;
  tx_medication : ObjectId;
  tx_type       : TxType;
  tx_qty        : Z;
  tx_adjustSign : option Sign;
  tx_lot        : option string;
  tx_expiryDate : option Date;
  tx_unitCost   : option Z;
  tx_refType    : string;
  tx_refId      : option ObjectId;
  tx_refCode    : option string;
  tx_reason     : string;
  tx_createdAt  : Date
}.

(** [policySchema]: every field has [default: 0]. *)
Record Policy := mkPolicy {
  reorderPoint          : Z;
  safetyStock           : Z;
  avgMonthlyConsumption : Z
}.

Record Medication := mkMedication {
  med_id                : ObjectId;
  med_unitPrice         : Z;
  med_preferredSupplier : option ObjectId;
  med_policy            : Policy
}.

Record Supplier := mkSupplier {
  sup_id : ObjectId
}.

Inductive POStatus := DRAFT | SENT | RECEIVED | CANCELLED.

Definition POStatus_eqb (a b : POStatus) : bool :=
  match a, b with
  | DRAFT, DRAFT | SENT, SENT | RECEIVED, RECEIVED | CANCELLED, CANCELLED => true
  | _, _ => false
  end.

Record POLine := mkLine {
  line_medication : ObjectId;
  line_qty        : Z;
  line_unitPrice  : Z
}.

Record PurchaseOrder := mkPO {
  po_id         : ObjectId;
  po_code       : string;
  po_hospital   : ObjectId;
  po_supplier   : ObjectId;
  po_status     : POStatus;
  po_lines      : list POLine;
  po_receivedAt : option Date
}.

Record Notification := mkNotification {
  n_id            : ObjectId;
  n_hospital      : ObjectId;
  n_type          : string;
  n_medication    : option ObjectId;
  n_purchaseOrder : option ObjectId;
  n_stockQty      : option Z;
  n_reorderPoint  : option Z
}.

(** The collections, and the [ObjectId] counter. *)
Record DB := mkDB {
  transactions   : list InventoryTransaction;
  medications    : list Medication;
  suppliers      : list Supplier;
  purchaseOrders : list PurchaseOrder;
  notifications  : list Notification;
  nextId         : ObjectId
}.

(* ================================================================== *)
(** * Errors and the handler monad                                     *)
(* ================================================================== *)

Inductive Error :=
| BadRequest (message : string)                 (* res.status(400) *)
| NotFound (message : string)                   (* res.status(404) *)
| Conflict (message : string)                   (* res.status(409) *)
| SafetyStockViolation (projected safety : Z)   (* 409 carrying both values *)
| ValidationError (message : string)            (* thrown by validate/save *)
| Thrown (message : string).                    (* any other [throw] *)

Inductive Result (A : Type) :=
| Ok (a : A)
| Err (e : Error).
Arguments Ok {A} a.
Arguments Err {A} e.


Definition M (A : Type) : Type := DB -> Result A * DB.

Definition ret {A} (a : A) : M A := fun db => (Ok a, db).
Definition throw {A} (e : Error) : M A := fun db => (Err e, db).
Definition bind {A B} (c : M A) (k : A -> M B) : M B :=
  fun db =>
    match c db with
    | (Ok a, db') => k a db'
    | (Err e, db') => (Err e, db')
    end.
Definition gets {A} (f : DB -> A) : M A := fun db => (Ok (f db), db).
Definition modify (f : DB -> DB) : M unit := fun db => (Ok tt, f db).
Definition liftR {A} (r : Result A) : M A := fun db => (r, db).

Declare Scope handler_scope.
Delimit Scope handler_scope with handler.
Notation "x <- c ;; k" := (bind c (fun x => k))
  (at level 61, c at next level, right associativity) : handler_scope.
Notation "c ;;; k" := (bind c (fun _ => k))
  (at level 61, right associativity) : handler_scope.
Local Open Scope handler_scope.

(** [for (const x of xs) { await body(x) }] *)
Fixpoint forEach {A} (xs : list A) (body : A -> M unit) : M unit :=
  match xs with
  | [] => ret tt
  | x :: rest => body x ;;; forEach rest body
  end.

(** [session.withTransaction(fn)]: [fn] receives the committed snapshot
    (what reads without the session see) and runs on the session's view,
    which starts as that snapshot.  Commit on return, roll back on throw.
    Inside the callbacks of the controllers, [doc.save({ session })] and
    [Model.findById(...).session(session)] act on the session's view, while
    [getCurrentStock] and [getReceivedQtyByMedication] build their
    [Model.aggregate([...])] with no session and read the snapshot. *)
Definition withTransaction {A} (fn : DB -> M A) : M A :=
  fun committed =>
    match fn committed committed with
    | (Ok a, session) => (Ok a, session)
    | (Err e, _) => (Err e, committed)
    end.

(** [new Model(...)] assigns a fresh [_id]. *)
Definition newObjectId : M ObjectId :=
  fun db =>
    (Ok (nextId db),
     mkDB (transactions db) (medications db) (suppliers db)
          (purchaseOrders db) (notifications db) (S (nextId db))).

Definition setTransactions (l : list InventoryTransaction) (db : DB) : DB :=
  mkDB l (medications db) (suppliers db) (purchaseOrders db)
       (notifications db) (nextId db).

Definition setPurchaseOrders (l : list PurchaseOrder) (db : DB) : DB :=
  mkDB (transactions db) (medications db) (suppliers db) l
       (notifications db) (nextId db).

Definition setNotifications (l : list Notification) (db : DB) : DB :=
  mkDB (transactions db) (medications db) (suppliers db)
       (purchaseOrders db) l (nextId db).

(** [Model.findById(id)] *)
Definition findMedication (id : ObjectId) (db : DB) : option Medication :=
  find (fun m => Nat.eqb (med_id m) id) (medications db).

Definition findSupplier (id : ObjectId) (db : DB) : option Supplier :=
  find (fun s => Nat.eqb (sup_id s) id) (suppliers db).

Definition findPurchaseOrder (id : ObjectId) (db : DB) : option PurchaseOrder :=
  find (fun p => Nat.eqb (po_id p) id) (purchaseOrders db).

(** Pipeline stages shared by the controllers. *)
Module Pipeline.

(** [{ $sum: expr }] accumulates from [0] in document order. *)
Definition sum {T} (expr : T -> Z) (docs : list T) : Z :=
  fold_left (fun acc d => acc + expr d) docs 0.

(** [{ $group: { _id: null, stock: { $sum: expr } } }]: one group when
    at least one document reaches the stage, no group otherwise. *)
Definition groupNull {T} (expr : T -> Z) (docs : list T) : list Z :=
  match docs with
  | [] => []
  | _ :: _ => [sum expr docs]
  end.

(** [{ $group: { _id: key, total: { $sum: expr } } }]: one row per
    distinct key, listed in order of first occurrence. *)
Fixpoint addTo {K} (eqb : K -> K -> bool) (k : K) (v : Z)
         (rows : list (K * Z)) : list (K * Z) :=
  match rows with
  | [] => [(k, v)]
  | (k', s) :: rest =>
      if eqb k' k then (k', s + v) :: rest
      else (k', s) :: addTo eqb k v rest
  end.

Definition groupBy {T K} (eqb : K -> K -> bool) (key : T -> K)
           (expr : T -> Z) (docs : list T) : list (K * Z) :=
  fold_left (fun rows d => addTo eqb (key d) (expr d) rows) docs [].

End Pipeline.

(* ================================================================== *)
(** * Paging of the list endpoints                                     *)
(* ================================================================== *)

(** The three lines every list handler starts with ([listTransactions],
    [listPOs], [searchMedicationByName]):
    [[
      const pg = Math.max(parseInt(page, 10) || 1, 1);
      const lim = Math.min(Math.max(parseInt(limit, 10) || 20, 1), 200);
      const skip = (pg - 1) * lim;
    ]]
    A query parameter is given by what [parseInt] makes of it: [None] when
    it does not parse ([NaN]); an absent parameter takes its destructuring
    default, which parses to itself. *)
Module Pagination.

(** [parseInt(x, 10) || d]: [NaN] and [0] are falsy. *)
Definition parsedOr (d : Z) (x : option Z) : Z :=
  match x with
  | Some n => if n =? 0 then d else n
  | None => d
  end.

Definition pg (page : option Z) : Z := Z.max (parsedOr 1 page) 1.

Definition lim (limit : option Z) : Z :=
  Z.min (Z.max (parsedOr 20 limit) 1) 200.

Definition skip (page limit : option Z) : Z := (pg page - 1) * lim limit.

(** [Math.ceil(total / lim)] on a count and a positive limit. *)
Definition ceilDiv (total lim_ : Z) : Z := (total + lim_ - 1) / lim_.

(** [{ data: rows, meta: { page, limit, total, pages } }] *)
Record Page (A : Type) := mkPage {
  data       : list A;
  meta_page  : Z;
  meta_limit : Z;
  meta_total : Z;
  meta_pages : Z
}.
Arguments mkPage {A} _ _ _ _ _.
Arguments data {A} _.
Arguments meta_page {A} _.
Arguments meta_limit {A} _.
Arguments meta_total {A} _.
Arguments meta_pages {A} _.

(** [Model.find(filter).sort(sort).skip(skip).limit(lim)] next to
    [Model.countDocuments(filter)], on the documents [sorted] that match
    the filter, in the order of [sort]. *)
Definition respond {A} (page limit : option Z) (sorted : list A) : Page A :=
  let total := Z.of_nat (List.length sorted) in
  mkPage (firstn (Z.to_nat (lim limit))
                 (skipn (Z.to_nat (skip page limit)) sorted))
         (pg page) (lim limit) total (ceilDiv total (lim limit)).

End Pagination.

(* ================================================================== *)
(** * Middlewares/auth.js                                              *)
(* ================================================================== *)

Module AuthMiddleware.

(** The verified token payload [{ id, role, isSuperUser }]. *)
Record Payload := mkPayload {
  role        : string;
  isSuperUser : bool
}.

(** What a middleware does: call [next()] or answer with a status. *)
Inductive Decision (A : Type) :=
| next (a : A)
| status (code : Z).
Arguments next {A} a.
Arguments status {A} code.

(** [header.startsWith('Bearer ') ? header.slice(7) : null] *)
Definition bearerToken (header : string) : option string :=
  if String.prefix "Bearer " header
  then Some (String.substring 7 (String.length header - 7) header)
  else None.

(** [exports.requireAuth]; [verify] stands for
    [jwt.verify(token, process.env.JWT_SECRET)], [None] when it throws.
    The answer of [next] is [req.user]. *)
Definition requireAuth (verify : string -> option Payload)
           (authorization : option string) : Decision Payload :=
  let header := JS.dflt "" authorization in
  match JS.truthyStr (bearerToken header) with
  | None => status 401
  | Some token =>
      match verify token with
      | Some payload => next payload
      | None => status 401
      end
  end.

(** [exports.requireRole(...roles)] *)
Definition requireRole (roles : list string) (user : option Payload)
  : Decision unit :=
  match user with
  | Some u =>
      if isSuperUser u then next tt
      else if negb (JS.includes roles (role u)) then status 403
      else next tt
  | None => status 403
  end.

End AuthMiddleware.

(* ================================================================== *)
(** * Models/InventoryTransaction.js                                   *)
(* ================================================================== *)

Module InventoryTransactionModel.

(** [inventoryTransactionSchema.pre('validate', ...)] *)
Definition preValidate (this : InventoryTransaction) : Result unit :=
  if negb (0 <? tx_qty this) then
    Err (ValidationError "qty must be > 0")
  else if TxType_eqb (tx_type this) ADJUST
          && negb (JS.isSome (tx_adjustSign this)) then
    Err (ValidationError "adjustSign is required for ADJUST transactions")
  else Ok tt.

(** The validators declared in the schema paths. *)
Definition schemaValidate (this : InventoryTransaction) : Result unit :=
  if negb (1 <=? tx_qty this) then
    Err (ValidationError "qty must be > 0")
  else if TxType_eqb (tx_type this) ADJUST
          && negb (JS.isSome (tx_adjustSign this)) then
    Err (ValidationError "Path `adjustSign` is required.")
  else if match tx_unitCost this with
          | Some c => negb (0 <=? c)
          | None => false
          end then
    Err (ValidationError "Path `unitCost` is less than minimum allowed value (0).")
  else if negb (JS.includes REF_TYPES (tx_refType this)) then
    Err (ValidationError "`refType` is not a valid enum value.")
  else if negb (JS.includes REASONS (tx_reason this)) then
    Err (ValidationError "`reason` is not a valid enum value.")
  else Ok tt.

Definition validate (this : InventoryTransaction) : Result unit :=
  match preValidate this with
  | Err e => Err e
  | Ok _ => schemaValidate this
  end.

(** [doc.save({ session })]: validate, then insert. *)
Definition save (this : InventoryTransaction) : M unit :=
  fun db =>
    match validate this with
    | Err e => (Err e, db)
    | Ok _ => (Ok tt, setTransactions (transactions db ++ [this]) db)
    end.


(** [methods.hasBatchInfo] *)
Definition hasBatchInfo (this : InventoryTransaction) : bool :=
  JS.isSome (JS.truthyStr (tx_lot this)) || JS.isSome (tx_expiryDate this).

End InventoryTransactionModel.


(* ================================================================== *)
(** * Controllers/inventoryTransactionController.js                    *)
(* ================================================================== *)

Module InventoryCtl.

Import InventoryTransactionModel.

(** [signedQtyExpr]: the [$switch] tries its branches in order and falls
    to [default: 0]. *)
Definition signedQtyExpr (d : InventoryTransaction) : Z :=
  if TxType_eqb (tx_type d) IN then tx_qty d
  else if TxType_eqb (tx_type d) OUT then tx_qty d * -1
  else if TxType_eqb (tx_type d) ADJUST
          && JS.optEqb Sign_eqb (tx_adjustSign d) (Some SignIN)
       then tx_qty d
  else if TxType_eqb (tx_type d) ADJUST
          && JS.optEqb Sign_eqb (tx_adjustSign d) (Some SignOUT)
       then tx_qty d * -1
  else 0.

(** The [$match] document built by [getCurrentStock]: [lot] and
    [expiryDate] narrow the scope only when truthy. *)
Definition stockMatch (hospitalId medicationId : ObjectId)
           (lot : option string) (expiryDate : option Date)
           (d : InventoryTransaction) : bool :=
  Nat.eqb (tx_hospital d) hospitalId
  && Nat.eqb (tx_medication d) medicationId
  && match JS.truthyStr lot with
     | Some l => JS.optEqb String.eqb (tx_lot d) (Some l)
     | None => true
     end
  && match expiryDate with
     | Some e => JS.optEqb Z.eqb (tx_expiryDate d) (Some e)
     | None => true
     end.

(** [getCurrentStock({ hospitalId, medicationId, lot, expiryDate })],
    read from the collections [db]. *)
Definition getCurrentStock (hospitalId medicationId : ObjectId)
           (lot : option string) (expiryDate : option Date) (db : DB) : Z :=
  let agg :=
    Pipeline.groupNull signedQtyExpr
      (filter (stockMatch hospitalId medicationId lot expiryDate)
              (transactions db)) in
  match agg with
  | [] => 0                       (* agg[0]?.stock is undefined *)
  | stock :: _ => JS.orZero stock
  end.

(** [assertSafetyStock({ hospitalId, medication, projected })] *)
Definition assertSafetyStock (medication : Medication) (projected : Z)
  : Result unit :=
  let safety := JS.orZero (safetyStock (med_policy medication)) in
  if (0 <? safety) && (projected <? safety)
  then Err (SafetyStockViolation projected safety)
  else Ok tt.

(** [req.body] of the in / out / adjust endpoints. *)
Record MovementBody := mkMovementBody {
  hospital   : option ObjectId;
  medication : option ObjectId;
  qty        : option Z;
  adjustSign : option string;
  lot        : option string;
  expiryDate : option Date;
  unitCost   : option Z;
  reason     : option string;
  refType    : option string;
  refId      : option ObjectId;
  refCode    : option string
}.

(** [data: { before, after, projected }] *)
Record StockData := mkStockData {
  before    : Z;
  after     : Z;
  projected : Z
}.

(** [exports.createIn] *)
Definition createIn (now : Date) (body : MovementBody) : M StockData :=
  match hospital body, medication body, JS.truthyNum (qty body) with
  | Some hId, Some mId, Some qty_ =>
      med_ <- gets (findMedication mId) ;;
      match med_ with
      | None => throw (NotFound "Medication not found")
      | Some med =>
          current <- gets (getCurrentStock hId mId None None) ;;
          let projected := current + qty_ in
          withTransaction (fun _ =>
            id <- newObjectId ;;
            save (mkTx id hId mId IN qty_ None
                       (JS.truthyStr (lot body)) (expiryDate body)
                       (Some (JS.nullish (unitCost body) (med_unitPrice med)))
                       (JS.dflt "OTHER" (refType body)) (refId body)
                       (refCode body)
                       (JS.dflt "PURCHASE_RECEIPT" (reason body)) now)) ;;;
          after <- gets (getCurrentStock hId mId None None) ;;
          ret (mkStockData current after projected)
      end
  | _, _, _ => throw (BadRequest "hospital, medication y qty son requeridos")
  end.

(** [exports.createOut] *)
Definition createOut (now : Date) (body : MovementBody) : M StockData :=
  match hospital body, medication body, JS.truthyNum (qty body) with
  | Some hId, Some mId, Some qty_ =>
      med_ <- gets (findMedication mId) ;;
      match med_ with
      | None => throw (NotFound "Medication not found")
      | Some med =>
          current <- gets (getCurrentStock hId mId None None) ;;
          let projected := current - qty_ in
          liftR (assertSafetyStock med projected) ;;;
          withTransaction (fun _ =>
            id <- newObjectId ;;
            save (mkTx id hId mId OUT qty_ None
                       (JS.truthyStr (lot body)) (expiryDate body) None
                       (JS.dflt "OTHER" (refType body)) (refId body)
                       (refCode body)
                       (JS.dflt "CONSUMPTION" (reason body)) now)) ;;;
          after <- gets (getCurrentStock hId mId None None) ;;
          ret (mkStockData current after projected)
      end
  | _, _, _ => throw (BadRequest "hospital, medication y qty son requeridos")
  end.

(** [exports.createAdjust] *)
Definition createAdjust (now : Date) (body : MovementBody) : M StockData :=
  match hospital body, medication body, JS.truthyNum (qty body),
        JS.truthyStr (adjustSign body) with
  | Some hId, Some mId, Some qty_, Some sign_ =>
      if negb (JS.includes ["IN"; "OUT"] sign_) then
        throw (BadRequest "adjustSign invalido")
      else
        let sign := if String.eqb sign_ "IN" then SignIN else SignOUT in
        med_ <- gets (findMedication mId) ;;
        match med_ with
        | None => throw (NotFound "Medication not found")
        | Some med =>
            current <- gets (getCurrentStock hId mId None None) ;;
            let projected :=
              if Sign_eqb sign SignIN then current + qty_ else current - qty_ in
            (if Sign_eqb sign SignOUT
             then liftR (assertSafetyStock med projected)
             else ret tt) ;;;
            withTransaction (fun _ =>
              id <- newObjectId ;;
              save (mkTx id hId mId ADJUST qty_ (Some sign)
                         (JS.truthyStr (lot body)) (expiryDate body) None
                         (JS.dflt "ADJ" (refType body)) (refId body)
                         (refCode body)
                         (JS.dflt (if Sign_eqb sign SignIN
                                   then "ADJUST_POS" else "ADJUST_NEG")
                                  (reason body)) now)) ;;;
            after <- gets (getCurrentStock hId mId None None) ;;
            ret (mkStockData current after projected)
        end
  | _, _, _, _ =>
      throw (BadRequest "hospital, medication, qty y adjustSign son requeridos")
  end.

(** [req.body] of the transfer endpoint. *)
Record TransferBody := mkTransferBody {
  fromHospital    : option ObjectId;
  toHospital      : option ObjectId;
  xfer_medication : option ObjectId;
  xfer_qty        : option Z;
  xfer_lot        : option string;
  xfer_expiryDate : option Date;
  xfer_refCode    : option string
}.

(** [data: { from: { before, after }, to: { after } }] *)
Record TransferData := mkTransferData {
  from_before : Z;
  from_after  : Z;
  to_after    : Z
}.

(** The two documents built inside the transaction callback. *)
Definition outTx (id fromId mId : ObjectId) (q : Z) (body : TransferBody)
           (now : Date) : InventoryTransaction :=
  mkTx id fromId mId OUT q None
       (JS.truthyStr (xfer_lot body)) (xfer_expiryDate body) None
       "XFER" None (xfer_refCode body) "TRANSFER_OUT" now.

Definition inTx (id toId mId : ObjectId) (q : Z) (body : TransferBody)
           (outId : ObjectId) (now : Date) : InventoryTransaction :=
  mkTx id toId mId IN q None
       (JS.truthyStr (xfer_lot body)) (xfer_expiryDate body) None
       "XFER" (Some outId) (xfer_refCode body) "TRANSFER_IN" now.

(** [exports.transferBetweenHospitals] *)
Definition transferBetweenHospitals (now : Date) (body : TransferBody)
  : M TransferData :=
  match fromHospital body, toHospital body, xfer_medication body,
        JS.truthyNum (xfer_qty body) with
  | Some fromId, Some toId, Some mId, Some qty_ =>
      if Nat.eqb fromId toId then
        throw (BadRequest "fromHospital y toHospital no pueden ser iguales")
      else
        med_ <- gets (findMedication mId) ;;
        match med_ with
        | None => throw (NotFound "Medication not found")
        | Some med =>
            currentFrom <- gets (getCurrentStock fromId mId None None) ;;
            let projectedFrom := currentFrom - qty_ in
            liftR (assertSafetyStock med projectedFrom) ;;;
            withTransaction (fun _ =>
              outId <- newObjectId ;;
              save (outTx outId fromId mId qty_ body now) ;;;
              inId <- newObjectId ;;
              save (inTx inId toId mId qty_ body outId now)) ;;;
            afterFrom <- gets (getCurrentStock fromId mId None None) ;;
            afterTo <- gets (getCurrentStock toId mId None None) ;;
            ret (mkTransferData currentFrom afterFrom afterTo)
        end
  | _, _, _, _ =>
      throw (BadRequest "fromHospital, toHospital, medication y qty son requeridos")
  end.

(** [req.body] of the write-off endpoint. *)
Record WriteOffBody := mkWriteOffBody {
  wo_hospital   : option ObjectId;
  cutoffDate    : option Date;
  wo_medication : option ObjectId
}.

(** [_id: { medication, lot, expiryDate }] of a group. *)
Record LotKey := mkLotKey {
  key_medication : ObjectId;
  key_lot        : option string;
  key_expiryDate : option Date
}.

Definition LotKey_eqb (a b : LotKey) : bool :=
  Nat.eqb (key_medication a) (key_medication b)
  && JS.optEqb String.eqb (key_lot a) (key_lot b)
  && JS.optEqb Z.eqb (key_expiryDate a) (key_expiryDate b).

Definition lotKeyOf (d : InventoryTransaction) : LotKey :=
  mkLotKey (tx_medication d) (tx_lot d) (tx_expiryDate d).

(** [{ hospital: hId, expiryDate: { $ne: null, $lte: cutoff } }], plus
    [medication] when the body names one. *)
Definition expiredMatch (hId : ObjectId) (cutoff : Date)
           (medication_ : option ObjectId) (d : InventoryTransaction) : bool :=
  Nat.eqb (tx_hospital d) hId
  && match tx_expiryDate d with
     | Some e => e <=? cutoff
     | None => false
     end
  && match medication_ with
     | Some m => Nat.eqb (tx_medication d) m
     | None => true
     end.

(** The aggregation that finds expired lots with positive stock. *)
Definition expiredLots (hId : ObjectId) (cutoff : Date)
           (medication_ : option ObjectId) (db : DB) : list (LotKey * Z) :=
  filter (fun l => 0 <? snd l)
         (Pipeline.groupBy LotKey_eqb lotKeyOf signedQtyExpr
            (filter (expiredMatch hId cutoff medication_) (transactions db))).

(** The write-off document of one lot. *)
Definition writeOffTx (id hId : ObjectId) (l : LotKey * Z) (now : Date)
  : InventoryTransaction :=
  mkTx id hId (key_medication (fst l)) OUT (snd l) None
       (JS.truthyStr (key_lot (fst l))) (key_expiryDate (fst l)) None
       "OTHER" None None "WRITE_OFF" now.

(** The body of the [for (const l of lots)] loop.  [Medication.findById]
    carries the session; [getCurrentStock] does not and reads [committed]. *)
Definition writeOffLot (now : Date) (hId : ObjectId) (committed : DB)
           (l : LotKey * Z) : M unit :=
  let mId := key_medication (fst l) in
  medDoc_ <- gets (findMedication mId) ;;
  match medDoc_ with
  | None => ret tt                                   (* continue *)
  | Some medDoc =>
      let totalCurrent := getCurrentStock hId mId None None committed in
      let projected := totalCurrent - snd l in
      liftR (assertSafetyStock medDoc projected) ;;;
      id <- newObjectId ;;
      save (writeOffTx id hId l now)
  end.

(** [exports.writeOffExpired]; the payload is [data], the list of lots. *)
Definition writeOffExpired (now : Date) (body : WriteOffBody)
  : M (list (LotKey * Z)) :=
  match wo_hospital body, cutoffDate body with
  | Some hId, Some cutoff =>
      lots <- gets (expiredLots hId cutoff (wo_medication body)) ;;
      match lots with
      | [] => ret []
      | _ :: _ =>
          withTransaction (fun committed =>
            forEach lots (writeOffLot now hId committed)) ;;;
          ret lots
      end
  | _, _ => throw (BadRequest "hospital y cutoffDate son requeridos")
  end.

(** [req.query] of the kardex endpoint. *)
Record KardexQuery := mkKardexQuery {
  k_hospital   : option ObjectId;
  k_medication : option ObjectId;
  dateFrom     : option Date;
  dateTo       : option Date
}.

(** A row of the kardex: the movement with [signedQty] and
    [runningBalance] set. *)
Record KardexRow := mkKardexRow {
  row_tx         : InventoryTransaction;
  signedQty      : Z;
  runningBalance : Z
}.

Definition kardexMatch (hId mId : ObjectId) (from_ to_ : option Date)
           (d : InventoryTransaction) : bool :=
  Nat.eqb (tx_hospital d) hId
  && Nat.eqb (tx_medication d) mId
  && match from_ with Some f => f <=? tx_createdAt d | None => true end
  && match to_ with Some t => tx_createdAt d <=? t | None => true end.

(** The order of [{ createdAt: 1, _id: 1 }]. *)
Definition sortLeb (a b : InventoryTransaction) : bool :=
  (tx_createdAt a <? tx_createdAt b)
  || ((tx_createdAt a =? tx_createdAt b) && Nat.leb (tx_id a) (tx_id b)).

Fixpoint insertSorted (x : InventoryTransaction)
         (l : list InventoryTransaction) : list InventoryTransaction :=
  match l with
  | [] => [x]
  | y :: rest =>
      if sortLeb x y then x :: y :: rest else y :: insertSorted x rest
  end.

(** [{ $sort: { createdAt: 1, _id: 1 } }] *)
Definition sortStage (docs : list InventoryTransaction)
  : list InventoryTransaction :=
  fold_right insertSorted [] docs.

(** [$sum] over the window [['unbounded', 'current']]. *)
Fixpoint window (acc : Z) (docs : list InventoryTransaction)
  : list KardexRow :=
  match docs with
  | [] => []
  | d :: rest =>
      let s := signedQtyExpr d in
      mkKardexRow d s (acc + s) :: window (acc + s) rest
  end.

(** [$set] then [$setWindowFields] with the same [sortBy]. *)
Definition setWindowFields (docs : list InventoryTransaction)
  : list KardexRow :=
  window 0 (sortStage docs).

(** [exports.kardexByMedication] *)
Definition kardexByMedication (query : KardexQuery) : M (list KardexRow) :=
  match k_hospital query, k_medication query with
  | Some hId, Some mId =>
      docs <- gets (fun db =>
                filter (kardexMatch hId mId (dateFrom query) (dateTo query))
                       (transactions db)) ;;
      ret (setWindowFields (sortStage docs))
  | _, _ => throw (BadRequest "hospital y medication son requeridos")
  end.






End InventoryCtl.


(* ================================================================== *)
(** * Controllers/medicationController.js                              *)
(* ================================================================== *)

Module MedicationCtl.

Import InventoryTransactionModel.

(** This controller carries its own copies of [signedQtyExpr] and
    [getCurrentStock]. *)
Definition signedQtyExpr (d : InventoryTransaction) : Z :=
  if TxType_eqb (tx_type d) IN then tx_qty d
  else if TxType_eqb (tx_type d) OUT then tx_qty d * -1
  else if TxType_eqb (tx_type d) ADJUST
          && JS.optEqb Sign_eqb (tx_adjustSign d) (Some SignIN)
       then tx_qty d
  else if TxType_eqb (tx_type d) ADJUST
          && JS.optEqb Sign_eqb (tx_adjustSign d) (Some SignOUT)
       then tx_qty d * -1
  else 0.

Definition getCurrentStock (hospitalId medicationId : ObjectId)
           (lot : option string) (expiryDate : option Date) (db : DB) : Z :=
  let agg :=
    Pipeline.groupNull signedQtyExpr
      (filter (fun d =>
                 Nat.eqb (tx_hospital d) hospitalId
                 && Nat.eqb (tx_medication d) medicationId
                 && match JS.truthyStr lot with
                    | Some l => JS.optEqb String.eqb (tx_lot d) (Some l)
                    | None => true
                    end
                 && match expiryDate with
                    | Some e => JS.optEqb Z.eqb (tx_expiryDate d) (Some e)
                    | None => true
                    end)
              (transactions db)) in
  match agg with
  | [] => 0
  | stock :: _ => JS.orZero stock
  end.

(** What [maybeTriggerReorder] returns:
    [{ created, notificationId, purchaseOrderId }]. *)
Record ReorderResult := mkReorderResult {
  created         : bool;
  notificationId  : option ObjectId;
  purchaseOrderId : option ObjectId
}.

(** [Notification.create] / [PurchaseOrder.create]: insert with a fresh id. *)
Definition createNotification (mk : ObjectId -> Notification) : M ObjectId :=
  id <- newObjectId ;;
  modify (fun db => setNotifications (notifications db ++ [mk id]) db) ;;;
  ret id.

Definition createPurchaseOrder (mk : ObjectId -> PurchaseOrder) : M ObjectId :=
  id <- newObjectId ;;
  modify (fun db => setPurchaseOrders (purchaseOrders db ++ [mk id]) db) ;;;
  ret id.

(** The quantity proposed to the preferred supplier:
    [Math.max(0, (safety + (avgMonthly || 0)) - stock)]. *)
Definition toBuy (medication : Medication) (stock : Z) : Z :=
  let avgMonthly := JS.orZero (avgMonthlyConsumption (med_policy medication)) in
  let safety := JS.orZero (safetyStock (med_policy medication)) in
  let target := safety + JS.orZero avgMonthly in
  Z.max 0 (target - stock).

(** [maybeTriggerReorder({ hospitalId, medication })].  [code] is the
    order code the function draws from the date and [Math.random]; both
    [create] calls are taken to succeed.  [meta.dailyConsumption] and
    [meta.daysCoverage], computed by floating-point division, are not
    recorded in the notification. *)
Definition maybeTriggerReorder (code : string) (hospitalId : ObjectId)
           (medication : Medication) : M ReorderResult :=
  stock <- gets (getCurrentStock hospitalId (med_id medication) None None) ;;
  let reorderPoint_ := JS.orZero (reorderPoint (med_policy medication)) in
  if reorderPoint_ <? stock then ret (mkReorderResult false None None)
  else
    notif <- createNotification (fun id =>
               mkNotification id hospitalId "LOW_STOCK"
                              (Some (med_id medication)) None
                              (Some stock) (Some reorderPoint_)) ;;
    po <- match med_preferredSupplier medication with
          | Some sid =>
              supplier_ <- gets (findSupplier sid) ;;
              match supplier_ with
              | Some supplier =>
                  let toBuy_ := toBuy medication stock in
                  if 0 <? toBuy_ then
                    pid <- createPurchaseOrder (fun id =>
                             mkPO id code hospitalId (sup_id supplier) DRAFT
                                  [mkLine (med_id medication) toBuy_
                                          (JS.orZero (med_unitPrice medication))]
                                  None) ;;
                    createNotification (fun id =>
                      mkNotification id hospitalId "ORDER_STATUS"
                                     None (Some pid) None None) ;;;
                    ret (Some pid)
                  else ret None
              | None => ret None
              end
          | None => ret None
          end ;;
    ret (mkReorderResult true (Some notif) po).

(** [req.body] of [POST /api/medications/:id/stock]. *)
Record StockBody := mkStockBody {
  hospitalId : option ObjectId;
  action     : option string;
  qty        : option Z;
  lot        : option string;
  expiryDate : option Date;
  unitCost   : option Z
}.

(** The two successful answers of [updateStock]. *)
Inductive StockResponse :=
| NoChange (stock : Z)                                 (* delta = 0 *)
| Updated (before after : Z) (trigger : ReorderResult).

(** [delta] as computed from [action]; [None] is the invalid action. *)
Definition deltaOf (action_ : string) (qty_ current : Z) : option Z :=
  if String.eqb action_ "increment" then Some qty_
  else if String.eqb action_ "decrement" then Some (- qty_)
  else if String.eqb action_ "set" then Some (qty_ - current)
  else None.

(** [exports.updateStock]; [id] is [req.params.id]. *)
Definition updateStock (now : Date) (code : string) (id : ObjectId)
           (body : StockBody) : M StockResponse :=
  match hospitalId body, qty body with
  | Some hId, Some qty_ =>
      med_ <- gets (findMedication id) ;;
      match med_ with
      | None => throw (NotFound "Medication not found")
      | Some med =>
          current <- gets (getCurrentStock hId id (lot body) (expiryDate body)) ;;
          match deltaOf (JS.dflt "increment" (action body)) qty_ current with
          | None => throw (BadRequest "action invalida")
          | Some delta =>
              if delta =? 0 then ret (NoChange current)
              else
                let projected := current + delta in
                let safety := JS.orZero (safetyStock (med_policy med)) in
                if (0 <? safety) && (projected <? safety) then
                  throw (SafetyStockViolation projected safety)
                else
                  withTransaction (fun _ =>
                    txId <- newObjectId ;;
                    save (mkTx txId hId id ADJUST (Z.abs delta)
                               (Some (if 0 <? delta then SignIN else SignOUT))
                               (JS.truthyStr (lot body)) (expiryDate body)
                               (Some (JS.nullish (unitCost body)
                                                 (med_unitPrice med)))
                               "ADJ" None None
                               (if 0 <? delta then "ADJUST_POS"
                                else "ADJUST_NEG") now)) ;;;
                  after <- gets (getCurrentStock hId id None None) ;;
                  trigger <- maybeTriggerReorder code hId med ;;
                  ret (Updated current after trigger)
          end
      end
  | _, _ => throw (BadRequest "hospitalId y qty son requeridos")
  end.

(** The characters of the class [[.*+?^${}()|[\]\\]] of [escapeRegex]. *)
Definition regexSpecials : list Ascii.ascii :=
  List.map Ascii.ascii_of_nat
           [46; 42; 43; 63; 94; 36; 123; 125; 40; 41; 124; 91; 93; 92]%nat.

Definition backslash : Ascii.ascii := Ascii.ascii_of_nat 92.

Definition isRegexSpecial (c : Ascii.ascii) : bool :=
  existsb (Ascii.eqb c) regexSpecials.

(** [escapeRegex(str)]: every character of the class is replaced by a
    backslash followed by itself ([replace(/.../g, '\\$&')]). *)
Fixpoint escapeRegex (str : string) : string :=
  match str with
  | EmptyString => EmptyString
  | String c rest =>
      if isRegexSpecial c
      then String backslash (String c (escapeRegex rest))
      else String c (escapeRegex rest)
  end.

End MedicationCtl.

(* ================================================================== *)
(** * Controllers/purchaseOrderController.js                           *)
(* ================================================================== *)

Module PurchaseOrderCtl.

Import InventoryTransactionModel.

(** [getReceivedQtyByMedication(poId)]: the rows of the [$group] stage
    [{ _id: '$medication', received: { $sum: '$qty' } }] over
    [{ refType: 'PO', refId: poId, type: 'IN' }], loaded into a [Map]. *)
Definition receivedMatch (poId : ObjectId) (d : InventoryTransaction) : bool :=
  String.eqb (tx_refType d) "PO"
  && JS.optEqb Nat.eqb (tx_refId d) (Some poId)
  && TxType_eqb (tx_type d) IN.

Definition getReceivedQtyByMedication (poId : ObjectId) (db : DB)
  : list (ObjectId * Z) :=
  Pipeline.groupBy Nat.eqb tx_medication tx_qty
    (filter (receivedMatch poId) (transactions db)).

(** [map.get(key)] *)
Fixpoint mapGet (receivedMap : list (ObjectId * Z)) (key : ObjectId) : option Z :=
  match receivedMap with
  | [] => None
  | (k, v) :: rest => if Nat.eqb k key then Some v else mapGet rest key
  end.

(** [receivedMap.get(String(l.medication)) || 0] *)
Definition receivedOf (receivedMap : list (ObjectId * Z)) (medication_ : ObjectId) : Z :=
  match mapGet receivedMap medication_ with
  | Some v => JS.orZero v
  | None => 0
  end.

(** One entry of [receivedSummary]:
    [{ medication, ordered, received, pending }]. *)
Record LineProgress := mkLineProgress {
  lp_medication : ObjectId;
  ordered       : Z;
  received      : Z;
  pending       : Z
}.

Definition receivedTotals (po : PurchaseOrder) (receivedMap : list (ObjectId * Z))
  : list LineProgress :=
  map (fun l =>
         mkLineProgress (line_medication l) (line_qty l)
                        (receivedOf receivedMap (line_medication l))
                        (Z.max 0 (line_qty l - receivedOf receivedMap (line_medication l))))
      (po_lines po).

(** An element of [req.body.items]. *)
Record Item := mkItem {
  it_medication : option ObjectId;
  it_qty        : option Z;
  it_lot        : option string;
  it_expiryDate : option Date;
  it_unitCost   : option Z
}.

(** [data: { po: freshPO, receivedSummary }] *)
Record ReceiveData := mkReceiveData {
  freshPO        : PurchaseOrder;
  receivedSummary : list LineProgress
}.

(** The validation loop over [items]: the first offending item answers. *)
Fixpoint checkItems (po : PurchaseOrder) (items : list Item) : Result unit :=
  match items with
  | [] => Ok tt
  | it :: rest =>
      match it_medication it, JS.truthyNum (it_qty it) with
      | Some m, Some q =>
          if q <=? 0 then
            Err (BadRequest "Cada item requiere medication y qty>0")
          else if negb (existsb (fun l => Nat.eqb (line_medication l) m)
                                (po_lines po)) then
            Err (BadRequest "Item contiene medicamento que no esta en la PO")
          else checkItems po rest
      | _, _ => Err (BadRequest "Cada item requiere medication y qty>0")
      end
  end.

(** [po.save({ session })] after assigning [status] (and [receivedAt]). *)
Definition savePO (po : PurchaseOrder) : M unit :=
  modify (fun db =>
    setPurchaseOrders
      (map (fun p => if Nat.eqb (po_id p) (po_id po) then po else p)
           (purchaseOrders db)) db).

Definition withStatus (po : PurchaseOrder) (s : POStatus)
           (receivedAt : option Date) : PurchaseOrder :=
  mkPO (po_id po) (po_code po) (po_hospital po) (po_supplier po) s
       (po_lines po) receivedAt.

(** The body of the [for (const it of items)] loop inside the transaction.
    ([Number(undefined)] is [NaN], which the [pre('validate')] hook refuses;
    after [checkItems] both fields are present.) *)
Definition receiveItem (now : Date) (po : PurchaseOrder) (it : Item) : M unit :=
  med_ <- gets (fun db =>
            match it_medication it with
            | Some m => findMedication m db
            | None => None
            end) ;;
  match med_ with
  | None => throw (Thrown "Medication not found")
  | Some med =>
      match it_medication it, it_qty it with
      | Some m, Some q =>
          id <- newObjectId ;;
          save (mkTx id (po_hospital po) m IN q None
                     (JS.truthyStr (it_lot it)) (it_expiryDate it)
                     (Some (JS.nullish (it_unitCost it) (med_unitPrice med)))
                     "PO" (Some (po_id po)) (Some (po_code po))
                     "PURCHASE_RECEIPT" now)
      | _, _ => throw (ValidationError "qty must be > 0")
      end
  end.

(** [po.lines.every(l => (receivedMap.get(...) || 0) >= Number(l.qty))] *)
Definition allReceived (po : PurchaseOrder) (receivedMap : list (ObjectId * Z)) : bool :=
  forallb (fun l => line_qty l <=? receivedOf receivedMap (line_medication l))
          (po_lines po).

(** The transaction callback of [receivePO].  The item loop and both
    [po.save] calls carry the session; [getReceivedQtyByMedication] builds
    its aggregate without one and so reads [committed]. *)
Definition receiveTransaction (now : Date) (po : PurchaseOrder)
           (items : list Item) (committed : DB) : M unit :=
  forEach items (receiveItem now po) ;;;
  let receivedMap := getReceivedQtyByMedication (po_id po) committed in
  if allReceived po receivedMap then
    savePO (withStatus po RECEIVED (Some now))
  else if POStatus_eqb (po_status po) DRAFT then
    savePO (withStatus po SENT (po_receivedAt po))
  else ret tt.

(** [notifyOrderStatus] *)
Definition notifyOrderStatus (hospital_ : ObjectId) (po : PurchaseOrder)
  : M unit :=
  id <- newObjectId ;;
  modify (fun db =>
    setNotifications
      (notifications db ++
         [mkNotification id hospital_ "ORDER_STATUS" None (Some (po_id po))
                         None None]) db).

(** [exports.receivePO]; [id] is [req.params.id]. *)
Definition receivePO (now : Date) (id : ObjectId) (items : list Item)
  : M ReceiveData :=
  match items with
  | [] => throw (BadRequest "items es requerido y no puede estar vacio")
  | _ :: _ =>
      po_ <- gets (findPurchaseOrder id) ;;
      match po_ with
      | None => throw (NotFound "PO no encontrada")
      | Some po =>
          if negb (POStatus_eqb (po_status po) SENT
                   || POStatus_eqb (po_status po) RECEIVED)
             && negb (POStatus_eqb (po_status po) DRAFT) then
            throw (Conflict "Estado invalido para recepcion")
          else
            liftR (checkItems po items) ;;;
            withTransaction (receiveTransaction now po items) ;;;
            fresh_ <- gets (findPurchaseOrder (po_id po)) ;;
            match fresh_ with
            | None => throw (Thrown "Cannot read properties of null")
            | Some fresh =>
                receivedMap <- gets (getReceivedQtyByMedication (po_id po)) ;;
                notifyOrderStatus (po_hospital fresh) fresh ;;;
                ret (mkReceiveData fresh (receivedTotals fresh receivedMap))
            end
      end
  end.

(** [exports.markSent] *)
Definition markSent (id : ObjectId) : M PurchaseOrder :=
  po_ <- gets (findPurchaseOrder id) ;;
  match po_ with
  | None => throw (NotFound "PO no encontrada")
  | Some po =>
      if negb (POStatus_eqb (po_status po) DRAFT) then
        throw (Conflict "Solo DRAFT puede enviarse")
      else
        let po' := withStatus po SENT (po_receivedAt po) in
        savePO po' ;;;
        notifyOrderStatus (po_hospital po') po' ;;;
        ret po'
  end.



End PurchaseOrderCtl.


(* ================================================================== *)
(** * Vocabulary of the properties                                     *)
(* ================================================================== *)



(** The invariant of a committed movement. *)
Definition wellFormed (d : InventoryTransaction) : Prop :=
  0 < tx_qty d /\ (tx_type d = ADJUST -> tx_adjustSign d <> None).



(** The database after inserting [d] with a freshly drawn id. *)
Definition inserted (d : InventoryTransaction) (db : DB) : DB :=
  mkDB (transactions db ++ [d]) (medications db) (suppliers db)
       (purchaseOrders db) (notifications db) (S (nextId db)).

(** The ledger invariant: every committed movement is well formed. *)
Definition ledgerInvariant (db : DB) : Prop :=
  Forall wellFormed (transactions db).

(** A computation keeps the ledger invariant. *)
Definition keeps {A} (c : M A) : Prop :=
  forall db, ledgerInvariant db -> ledgerInvariant (snd (c db)).

(** The requests served by the three controllers. *)
Inductive Request :=
| CreateIn (now : Date) (body : InventoryCtl.MovementBody)
| CreateOut (now : Date) (body : InventoryCtl.MovementBody)
| CreateAdjust (now : Date) (body : InventoryCtl.MovementBody)
| Transfer (now : Date) (body : InventoryCtl.TransferBody)
| WriteOffExpired (now : Date) (body : InventoryCtl.WriteOffBody)
| Kardex (query : InventoryCtl.KardexQuery)
| UpdateStock (now : Date) (code : string) (id : ObjectId)
              (body : MedicationCtl.StockBody)
| ReceivePO (now : Date) (id : ObjectId) (items : list PurchaseOrderCtl.Item)
| MarkSent (id : ObjectId).

(** The database a request leaves behind. *)
Definition serve (r : Request) (db : DB) : DB :=
  match r with
  | CreateIn now body => snd (InventoryCtl.createIn now body db)
  | CreateOut now body => snd (InventoryCtl.createOut now body db)
  | CreateAdjust now body => snd (InventoryCtl.createAdjust now body db)
  | Transfer now body => snd (InventoryCtl.transferBetweenHospitals now body db)
  | WriteOffExpired now body => snd (InventoryCtl.writeOffExpired now body db)
  | Kardex query => snd (InventoryCtl.kardexByMedication query db)
  | UpdateStock now code id body =>
      snd (MedicationCtl.updateStock now code id body db)
  | ReceivePO now id items => snd (PurchaseOrderCtl.receivePO now id items db)
  | MarkSent id => snd (PurchaseOrderCtl.markSent id db)
  end.

(** The databases reachable from an empty ledger by serving requests. *)
Inductive Reachable : DB -> Prop :=
| reach_init (db : DB) : transactions db = [] -> Reachable db
| reach_step (db : DB) (r : Request) : Reachable db -> Reachable (serve r db).
















(** The purchase orders a run added to the collection. *)
Definition newOrders (db db' : DB) : list PurchaseOrder :=
  skipn (List.length (purchaseOrders db)) (purchaseOrders db').

(** The supplier the evaluator proposes to, when the item designates one
    that resolves. *)
Definition resolvedSupplier (medication : Medication) (db : DB)
  : option Supplier :=
  match med_preferredSupplier medication with
  | Some sid => findSupplier sid db
  | None => None
  end.

(** The low-stock event and the draft proposal written by the evaluator. *)
Definition lowStockEvent (id hospitalId : ObjectId) (medication : Medication)
           (stock : Z) : Notification :=
  mkNotification id hospitalId "LOW_STOCK" (Some (med_id medication)) None
                 (Some stock) (Some (reorderPoint (med_policy medication))).

Definition draftProposal (id : ObjectId) (code : string)
           (hospitalId : ObjectId) (supplier : Supplier)
           (medication : Medication) (stock : Z) : PurchaseOrder :=
  mkPO id code hospitalId (sup_id supplier) DRAFT
       [mkLine (med_id medication) (MedicationCtl.toBuy medication stock)
               (med_unitPrice medication)]
       None.

(** The quantities of the orders a run drafted. *)
Definition proposedQty (db db' : DB) : list Z :=
  flat_map (fun po => map line_qty (po_lines po)) (newOrders db db').

(** The evaluator as the specification words it: trigger at or below the
    reorder point; propose [max(0, safetyStock + avgMonthlyConsumption -
    stock)] to a resolvable preferred supplier when that is positive. *)
Definition specTriggered (medication : Medication) (stock : Z) : bool :=
  stock <=? reorderPoint (med_policy medication).

Definition specProposal (medication : Medication) (db : DB) (stock : Z)
  : option Z :=
  let q := Z.max 0 (safetyStock (med_policy medication)
                    + avgMonthlyConsumption (med_policy medication) - stock) in
  if specTriggered medication stock then
    match resolvedSupplier medication db with
    | Some _ => if 0 <? q then Some q else None
    | None => None
    end
  else None.



(** ** Vocabulary of the further properties *)

(** A computation keeps the property [I] of the database. *)
Definition preserves (I : DB -> Prop) {A} (c : M A) : Prop :=
  forall db, I db -> I (snd (c db)).




(** The ledger of [db] is the ledger of [db0] with movements added at the
    end, and the master data is the same. *)
Definition extends (db0 db : DB) : Prop :=
  (exists new, transactions db = transactions db0 ++ new)
  /\ medications db = medications db0
  /\ suppliers db = suppliers db0.

(** Notifications and purchase orders are those of [db0]. *)
Definition sameEvents (db0 db : DB) : Prop :=
  notifications db = notifications db0
  /\ purchaseOrders db = purchaseOrders db0.



(** The requests of the inventory controller. *)
Definition ofInventoryController (r : Request) : bool :=
  match r with
  | CreateIn _ _ | CreateOut _ _ | CreateAdjust _ _ | Transfer _ _
  | WriteOffExpired _ _ | Kardex _ => true
  | _ => false
  end.

(** The roles each route asks of [requireRole]; [None] for a route behind
    [requireAuth] alone ([Routes/inventoryTransactionRoutes.js],
    [Routes/medicationRoutes.js], [Routes/purchaseOrderRoutes.js]). *)
Definition routeRoles (r : Request) : option (list string) :=
  match r with
  | Kardex _ => None
  | _ => Some ["admin"; "manager"]
  end.

(** A request sent through its route:
    [router.post(path, requireAuth, requireRole(...), handler)]. *)
Definition throughRoute (verify : string -> option AuthMiddleware.Payload)
           (authorization : option string) (r : Request) (db : DB) : DB :=
  match AuthMiddleware.requireAuth verify authorization with
  | AuthMiddleware.status _ => db
  | AuthMiddleware.next user =>
      match routeRoles r with
      | None => serve r db
      | Some roles =>
          match AuthMiddleware.requireRole roles (Some user) with
          | AuthMiddleware.status _ => db
          | AuthMiddleware.next _ => serve r db
          end
      end
  end.

(** The order a successful receipt leaves behind: closed when the
    receipts committed before it cover every line, moved out of draft
    otherwise. *)
Definition orderAfterReceipt (now : Date) (po : PurchaseOrder) (db : DB)
  : PurchaseOrder :=
  if PurchaseOrderCtl.allReceived po
       (PurchaseOrderCtl.getReceivedQtyByMedication (po_id po) db)
  then PurchaseOrderCtl.withStatus po RECEIVED (Some now)
  else if POStatus_eqb (po_status po) DRAFT
       then PurchaseOrderCtl.withStatus po SENT (po_receivedAt po)
       else po.

(** [d] is the movement a receipt against [po] writes for item [it]. *)
Definition isReceiptOf (now : Date) (po : PurchaseOrder)
           (it : PurchaseOrderCtl.Item) (d : InventoryTransaction) : Prop :=
  tx_type d = IN /\ tx_hospital d = po_hospital po
  /\ PurchaseOrderCtl.it_medication it = Some (tx_medication d)
  /\ PurchaseOrderCtl.it_qty it = Some (tx_qty d)
  /\ tx_refType d = "PO" /\ tx_refId d = Some (po_id po)
  /\ tx_refCode d = Some (po_code po)
  /\ tx_reason d = "PURCHASE_RECEIPT"
  /\ tx_lot d = JS.truthyStr (PurchaseOrderCtl.it_lot it)
  /\ tx_expiryDate d = PurchaseOrderCtl.it_expiryDate it
  /\ tx_createdAt d = now.

(** Purchase orders are those of [db0] with orders added at the end. *)
Definition ordersGrow (db0 db : DB) : Prop :=
  exists new, purchaseOrders db = purchaseOrders db0 ++ new.

(** The status changes the handlers make to an order. *)
Definition statusStep (before after : POStatus) : Prop :=
  after = before
  \/ (before = DRAFT /\ after = SENT)
  \/ (before <> CANCELLED /\ after = RECEIVED).













(** The text a regular expression without metacharacters matches: an
    ordinary character stands for itself, a backslash followed by a syntax
    character stands for that character; a bare syntax character or a
    dangling backslash makes the pattern something other than a literal. *)
Fixpoint literalOf (pattern : string) : option string :=
  match pattern with
  | EmptyString => Some EmptyString
  | String c rest =>
      if Ascii.eqb c MedicationCtl.backslash then
        match rest with
        | String c' rest' =>
            if MedicationCtl.isRegexSpecial c'
            then option_map (String c') (literalOf rest')
            else None
        | EmptyString => None
        end
      else if MedicationCtl.isRegexSpecial c then None
      else option_map (String c) (literalOf rest)
  end.

(** No character of the string is a syntax character. *)
Fixpoint plainText (s : string) : bool :=
  match s with
  | EmptyString => true
  | String c rest => negb (MedicationCtl.isRegexSpecial c) && plainText rest
  end.







(** ** Sample data

    The scenario of the specification: an item with [safetyStock = 10] and
    [reorderPoint = 50], and [60] units received at site [7]. *)
Definition sampleMed : Medication :=
  mkMedication 1 0 None (mkPolicy 50 10 0).

Definition sampleDB : DB :=
  mkDB [mkTx 100 7 1 IN 60 None (Some "L1") None (Some 0)
             "OTHER" None None "PURCHASE_RECEIPT" 0]
       [sampleMed] [] [] [] 101.

Definition sampleOut (q : Z) : InventoryCtl.MovementBody :=
  InventoryCtl.mkMovementBody (Some 7%nat) (Some 1%nat) (Some q) None
                              (Some "L2") None None None None None None.






(** An order of [10] units of the sample item, sent and not yet received,
    and the receipt of all [10] units. *)
Definition sampleOrder : PurchaseOrder :=
  mkPO 50 "PO-50" 7 9 SENT [mkLine 1 10 2] None.

Definition orderDB : DB :=
  mkDB [] [sampleMed] [] [sampleOrder] [] 60.

Definition fullReceipt : list PurchaseOrderCtl.Item :=
  [PurchaseOrderCtl.mkItem (Some 1%nat) (Some 10) (Some "L9") None None].

(** Site [7] with [60] units of the sample item in lot [L1] and [5] in
    lot [L2]. *)
Definition twoLotsDB : DB :=
  mkDB [mkTx 100 7 1 IN 60 None (Some "L1") None (Some 0)
             "OTHER" None None "PURCHASE_RECEIPT" 0;
        mkTx 101 7 1 IN 5 None (Some "L2") None (Some 0)
             "OTHER" None None "PURCHASE_RECEIPT" 1]
       [sampleMed] [] [] [] 102.



(* ================================================================== *)
(** * Basic facts                                                      *)
(* ================================================================== *)

Lemma orZero_id (x : Z) : JS.orZero x = x.
Proof. unfold JS.orZero. destruct (Z.eqb_spec x 0); congruence. Qed.










Lemma optEqb_nat_eq (a : option nat) (b : nat) :
  JS.optEqb Nat.eqb a (Some b) = true <-> a = Some b.
Proof.
  destruct a as [a|]; simpl.
  - rewrite Nat.eqb_eq. split; congruence.
  - split; discriminate.
Qed.





(* ================================================================== *)
(** * Stock projection                                                 *)
(* ================================================================== *)


(* ================================================================== *)
(** * Validation on append and the ledger invariant                    *)
(* ================================================================== *)

Lemma validate_rejects (d : InventoryTransaction) :
  tx_qty d <= 0 \/ (tx_type d = ADJUST /\ tx_adjustSign d = None) ->
  exists msg, InventoryTransactionModel.validate d = Err (ValidationError msg).
Proof.
  unfold InventoryTransactionModel.validate,
         InventoryTransactionModel.preValidate.
  intros [Hq | [Ht Hs]].
  - destruct (Z.ltb_spec 0 (tx_qty d)); [lia|]. simpl. eauto.
  - destruct (0 <? tx_qty d); simpl; [|eauto].
    rewrite Ht, Hs. simpl. eauto.
Qed.

Lemma validate_accepts (d : InventoryTransaction) :
  InventoryTransactionModel.validate d = Ok tt -> wellFormed d.
Proof.
  unfold InventoryTransactionModel.validate,
         InventoryTransactionModel.preValidate, wellFormed.
  destruct (Z.ltb_spec 0 (tx_qty d)) as [Hq|Hq]; simpl; [|discriminate].
  destruct (tx_type d); destruct (tx_adjustSign d); simpl;
    intros H; try discriminate; (split; [exact Hq | congruence]).
Qed.

Lemma save_cases (d : InventoryTransaction) (db : DB) :
  (exists e, InventoryTransactionModel.validate d = Err e
             /\ InventoryTransactionModel.save d db = (Err e, db))
  \/ (InventoryTransactionModel.validate d = Ok tt
      /\ InventoryTransactionModel.save d db =
         (Ok tt, setTransactions (transactions db ++ [d]) db)).
Proof.
  unfold InventoryTransactionModel.save.
  destruct (InventoryTransactionModel.validate d) as [[]|e]; eauto.
Qed.

(** ** The invariant is kept by every building block of a handler *)

Lemma keeps_ret {A} (a : A) : keeps (ret a).
Proof. intros db H; exact H. Qed.

Lemma keeps_throw {A} (e : Error) : keeps (@throw A e).
Proof. intros db H; exact H. Qed.

Lemma keeps_gets {A} (f : DB -> A) : keeps (gets f).
Proof. intros db H; exact H. Qed.

Lemma keeps_liftR {A} (r : Result A) : keeps (liftR r).
Proof. intros db H; exact H. Qed.

Lemma keeps_newObjectId : keeps newObjectId.
Proof. intros db H; exact H. Qed.

Lemma keeps_bind {A B} (c : M A) (k : A -> M B) :
  keeps c -> (forall a, keeps (k a)) -> keeps (bind c k).
Proof.
  intros Hc Hk db H. unfold bind.
  specialize (Hc db H). destruct (c db) as [[a|e] db1]; simpl in *.
  - apply Hk, Hc.
  - exact Hc.
Qed.

Lemma keeps_withTransaction {A} (fn : DB -> M A) :
  (forall committed, keeps (fn committed)) -> keeps (withTransaction fn).
Proof.
  intros Hfn db H. unfold withTransaction.
  specialize (Hfn db db H). destruct (fn db db) as [[a|e] db1]; simpl in *; auto.
Qed.

Lemma keeps_forEach {A} (xs : list A) (body : A -> M unit) :
  (forall x, keeps (body x)) -> keeps (forEach xs body).
Proof.
  intros Hb. induction xs as [|x xs IH]; simpl.
  - apply keeps_ret.
  - apply keeps_bind; auto.
Qed.

Lemma keeps_save (d : InventoryTransaction) :
  keeps (InventoryTransactionModel.save d).
Proof.
  intros db H.
  destruct (save_cases d db) as [(e & _ & ->) | (Hv & ->)]; simpl; [exact H|].
  unfold ledgerInvariant in *. simpl.
  apply Forall_app. split; [exact H|].
  constructor; [apply validate_accepts, Hv | constructor].
Qed.

Lemma keeps_modify (f : DB -> DB) :
  (forall db, transactions (f db) = transactions db) -> keeps (modify f).
Proof.
  intros Hf db H. unfold ledgerInvariant, modify in *. simpl. rewrite Hf. exact H.
Qed.

Create HintDb keeps.
#[local] Hint Resolve keeps_ret keeps_throw keeps_gets keeps_liftR
  keeps_newObjectId keeps_save : keeps.

Ltac keeps_step :=
  match goal with
  | |- keeps (bind _ _) => apply keeps_bind; [|intro]
  | |- keeps (withTransaction _) => apply keeps_withTransaction; intro
  | |- keeps (forEach _ _) => apply keeps_forEach; intro
  | |- keeps (modify _) => apply keeps_modify; intro; reflexivity
  | |- keeps (match ?x with _ => _ end) => destruct x
  | |- keeps _ => solve [auto with keeps]
  end.

Ltac keeps_tac := repeat (cbv zeta; keeps_step).

Lemma keeps_createIn now body : keeps (InventoryCtl.createIn now body).
Proof. unfold InventoryCtl.createIn. keeps_tac. Qed.

Lemma keeps_createOut now body : keeps (InventoryCtl.createOut now body).
Proof. unfold InventoryCtl.createOut. keeps_tac. Qed.

Lemma keeps_createAdjust now body : keeps (InventoryCtl.createAdjust now body).
Proof. unfold InventoryCtl.createAdjust. keeps_tac. Qed.

Lemma keeps_transfer now body :
  keeps (InventoryCtl.transferBetweenHospitals now body).
Proof. unfold InventoryCtl.transferBetweenHospitals. keeps_tac. Qed.

Lemma keeps_writeOffExpired now body :
  keeps (InventoryCtl.writeOffExpired now body).
Proof.
  unfold InventoryCtl.writeOffExpired, InventoryCtl.writeOffLot. keeps_tac.
Qed.

Lemma keeps_kardex query : keeps (InventoryCtl.kardexByMedication query).
Proof. unfold InventoryCtl.kardexByMedication. keeps_tac. Qed.

Lemma keeps_maybeTriggerReorder code h med :
  keeps (MedicationCtl.maybeTriggerReorder code h med).
Proof.
  unfold MedicationCtl.maybeTriggerReorder, MedicationCtl.createNotification,
         MedicationCtl.createPurchaseOrder.
  keeps_tac.
Qed.

Lemma keeps_updateStock now code id body :
  keeps (MedicationCtl.updateStock now code id body).
Proof.
  pose proof keeps_maybeTriggerReorder as Hm.
  unfold MedicationCtl.updateStock. keeps_tac.
Qed.

Lemma keeps_receivePO now id items :
  keeps (PurchaseOrderCtl.receivePO now id items).
Proof.
  unfold PurchaseOrderCtl.receivePO, PurchaseOrderCtl.receiveTransaction,
         PurchaseOrderCtl.receiveItem, PurchaseOrderCtl.savePO,
         PurchaseOrderCtl.notifyOrderStatus.
  keeps_tac.
Qed.

Lemma keeps_markSent id : keeps (PurchaseOrderCtl.markSent id).
Proof.
  unfold PurchaseOrderCtl.markSent, PurchaseOrderCtl.savePO,
         PurchaseOrderCtl.notifyOrderStatus.
  keeps_tac.
Qed.

Lemma serve_keeps (r : Request) (db : DB) :
  ledgerInvariant db -> ledgerInvariant (serve r db).
Proof.
  destruct r; simpl.
  - apply keeps_createIn.
  - apply keeps_createOut.
  - apply keeps_createAdjust.
  - apply keeps_transfer.
  - apply keeps_writeOffExpired.
  - apply keeps_kardex.
  - apply keeps_updateStock.
  - apply keeps_receivePO.
  - apply keeps_markSent.
Qed.

(** C8.  Appending a movement fails with a validation error when its
    quantity is [<= 0] or when its type is [ADJUST] and no adjust sign is
    supplied, and then nothing is written; an append either fails and
    leaves the database as it was, or inserts exactly the movement, which is
    then well formed; consequently every movement of a ledger reachable by
    serving requests has [qty > 0] and, if its type is [ADJUST], an adjust
    sign. *)
Theorem C8_append_validation_and_invariant :
  (forall d db,
      tx_qty d <= 0 \/ (tx_type d = ADJUST /\ tx_adjustSign d = None) ->
      exists msg,
        InventoryTransactionModel.save d db = (Err (ValidationError msg), db))
  /\ (forall d db,
        (exists e, InventoryTransactionModel.save d db = (Err e, db))
        \/ (InventoryTransactionModel.save d db =
              (Ok tt, setTransactions (transactions db ++ [d]) db)
            /\ wellFormed d))
  /\ (forall db, Reachable db ->
        forall d, In d (transactions db) ->
          0 < tx_qty d /\ (tx_type d = ADJUST -> tx_adjustSign d <> None)).
Proof.
  split; [|split].
  - intros d db Hbad. destruct (validate_rejects d Hbad) as [msg Hv].
    exists msg. unfold InventoryTransactionModel.save. rewrite Hv. reflexivity.
  - intros d db.
    destruct (save_cases d db) as [(e & _ & Hs) | (Hv & Hs)].
    + left. eauto.
    + right. split; [exact Hs | apply validate_accepts, Hv].
  - intros db Hr.
    assert (Hinv : ledgerInvariant db).
    { induction Hr as [db H0 | db r Hr IH].
      - unfold ledgerInvariant. rewrite H0. constructor.
      - apply serve_keeps, IH. }
    intros d Hin. unfold ledgerInvariant in Hinv.
    rewrite Forall_forall in Hinv. exact (Hinv d Hin).
Qed.

(* ================================================================== *)
(** * Single-movement commits and the safety-stock guard               *)
(* ================================================================== *)

Import InventoryCtl.



Lemma bind_gets {A B} (f : DB -> A) (k : A -> M B) (db : DB) :
  bind (gets f) k db = k (f db) db.
Proof. reflexivity. Qed.


Lemma bind_liftR {A B} (r : Result A) (k : A -> M B) (db : DB) :
  bind (liftR r) k db =
  match r with
  | Ok a => k a db
  | Err e => (Err e, db)
  end.
Proof. destruct r; reflexivity. Qed.














(* ================================================================== *)
(** * The guard and the snapshots ignore batch information             *)
(* ================================================================== *)







(* ================================================================== *)
(** * Transfers                                                        *)
(* ================================================================== *)













(* ================================================================== *)
(** * Batch write-off of expired lots                                  *)
(* ================================================================== *)












(* ================================================================== *)
(** * Balance replay (kardex)                                          *)
(* ================================================================== *)

















(* ================================================================== *)
(** * Reorder evaluation                                               *)
(* ================================================================== *)

Import MedicationCtl.

Lemma toBuy_spec (medication : Medication) (stock : Z) :
  toBuy medication stock =
  Z.max 0 (safetyStock (med_policy medication)
           + avgMonthlyConsumption (med_policy medication) - stock).
Proof. unfold toBuy. rewrite !orZero_id. reflexivity. Qed.

(** Every way an evaluation can end. *)
Lemma reorder_cases code h med db :
  let stock := MedicationCtl.getCurrentStock h (med_id med) None None db in
  let low := lowStockEvent (nextId db) h med stock in
  (reorderPoint (med_policy med) < stock
   /\ maybeTriggerReorder code h med db =
      (Ok (mkReorderResult false None None), db))
  \/ (stock <= reorderPoint (med_policy med)
      /\ (resolvedSupplier med db = None \/ toBuy med stock <= 0)
      /\ maybeTriggerReorder code h med db =
         (Ok (mkReorderResult true (Some (nextId db)) None),
          mkDB (transactions db) (medications db) (suppliers db)
               (purchaseOrders db) (notifications db ++ [low])
               (S (nextId db))))
  \/ (stock <= reorderPoint (med_policy med)
      /\ 0 < toBuy med stock
      /\ exists supplier,
          resolvedSupplier med db = Some supplier
          /\ maybeTriggerReorder code h med db =
             (Ok (mkReorderResult true (Some (nextId db))
                                  (Some (S (nextId db)))),
              mkDB (transactions db) (medications db) (suppliers db)
                   (purchaseOrders db ++
                      [draftProposal (S (nextId db)) code h supplier med stock])
                   ((notifications db ++ [low]) ++
                      [mkNotification (S (S (nextId db))) h "ORDER_STATUS"
                                      None (Some (S (nextId db))) None None])
                   (S (S (S (nextId db)))))).
Proof.
  cbv zeta. unfold maybeTriggerReorder. rewrite bind_gets.
  rewrite !orZero_id.
  set (stock := MedicationCtl.getCurrentStock h (med_id med) None None db).
  destruct (Z.ltb_spec (reorderPoint (med_policy med)) stock) as [Hlt|Hle].
  { left. split; [exact Hlt | reflexivity]. }
  right.
  unfold resolvedSupplier, draftProposal, lowStockEvent.
  destruct db as [txs meds sups pos nts nid].
  cbv beta iota zeta delta
      [bind createNotification createPurchaseOrder newObjectId modify gets ret
       setNotifications setPurchaseOrders transactions medications suppliers
       purchaseOrders notifications nextId findSupplier].
  destruct (med_preferredSupplier med) as [sid|].
  - destruct (find (fun s => Nat.eqb (sup_id s) sid) sups) as [sup|].
    + destruct (Z.ltb_spec 0 (toBuy med stock)) as [Hpos|Hnp].
      * right. split; [exact Hle|]. split; [exact Hpos|].
        exists sup. split; reflexivity.
      * left. split; [exact Hle|]. split; [right; exact Hnp | reflexivity].
    + left. split; [exact Hle|]. split; [left; reflexivity | reflexivity].
  - left. split; [exact Hle|]. split; [left; reflexivity | reflexivity].
Qed.

Lemma skipn_app_exact {T} (a b : list T) : skipn (List.length a) (a ++ b) = b.
Proof. induction a as [|x a IH]; simpl; auto. Qed.

Lemma skipn_exact {T} (a : list T) : skipn (List.length a) a = [].
Proof. induction a as [|x a IH]; simpl; auto. Qed.



(** One evaluation, summarised against the specification's wording. *)
Lemma reorder_summary code h med db :
  let stock := MedicationCtl.getCurrentStock h (med_id med) None None db in
  exists res db',
    maybeTriggerReorder code h med db = (Ok res, db')
    /\ created res = specTriggered med stock
    /\ proposedQty db db' =
       match specProposal med db stock with Some q => [q] | None => [] end
    /\ JS.isSome (purchaseOrderId res) = JS.isSome (specProposal med db stock)
    /\ transactions db' = transactions db
    /\ suppliers db' = suppliers db
    /\ (created res = false -> db' = db)
    /\ (created res = true ->
        exists n rest,
          notifications db' = notifications db ++ n :: rest
          /\ n = lowStockEvent (nextId db) h med stock
          /\ notificationId res = Some (n_id n))
    /\ (forall pid, purchaseOrderId res = Some pid ->
        exists supplier,
          resolvedSupplier med db = Some supplier
          /\ purchaseOrders db' =
             purchaseOrders db ++ [draftProposal pid code h supplier med stock])
    /\ (purchaseOrderId res = None -> purchaseOrders db' = purchaseOrders db).
Proof.
  cbv zeta.
  set (stock := MedicationCtl.getCurrentStock h (med_id med) None None db).
  unfold specProposal, specTriggered, proposedQty, newOrders.
  rewrite <- toBuy_spec.
  destruct (reorder_cases code h med db)
    as [(Hlt & ->) | [(Hle & Hno & ->) | (Hle & Hpos & sup & Hsup & ->)]];
    fold stock in Hlt || fold stock in Hle;
    try fold stock in Hno; try fold stock in Hpos;
    do 2 eexists; (split; [reflexivity|]); cbn [created purchaseOrderId
      notificationId transactions suppliers purchaseOrders notifications].
  - destruct (Z.leb_spec stock (reorderPoint (med_policy med))); [lia|].
    rewrite skipn_exact.
    repeat split; auto; try discriminate.
  - destruct (Z.leb_spec stock (reorderPoint (med_policy med))); [|lia].
    rewrite skipn_exact.
    assert (Hnone : match resolvedSupplier med db with
                    | Some _ => if 0 <? toBuy med stock
                                then Some (toBuy med stock) else None
                    | None => None
                    end = None).
    { destruct Hno as [-> | Hnp]; [reflexivity|].
      destruct (resolvedSupplier med db); [|reflexivity].
      destruct (Z.ltb_spec 0 (toBuy med stock)); [lia | reflexivity]. }
    rewrite Hnone.
    repeat split; auto; try discriminate.
    intros _. do 2 eexists. split; [reflexivity|]. split; reflexivity.
  - destruct (Z.leb_spec stock (reorderPoint (med_policy med))); [|lia].
    rewrite skipn_app_exact, Hsup.
    destruct (Z.ltb_spec 0 (toBuy med stock)); [|lia].
    repeat split; auto; try discriminate.
    + intros _. do 2 eexists. split; [|split; reflexivity].
      rewrite <- app_assoc. reflexivity.
    + intros pid Hpid. inversion Hpid; subst. exists sup. auto.
Qed.


(* ================================================================== *)
(** * Stock update of a medication                                     *)
(* ================================================================== *)


Lemma updateStock_blocked now code id body db hId qty_ med delta :
  hospitalId body = Some hId -> MedicationCtl.qty body = Some qty_ ->
  findMedication id db = Some med ->
  let current :=
    MedicationCtl.getCurrentStock hId id (MedicationCtl.lot body)
                                  (MedicationCtl.expiryDate body) db in
  deltaOf (JS.dflt "increment" (action body)) qty_ current = Some delta ->
  delta <> 0 ->
  0 < safetyStock (med_policy med) ->
  current + delta < safetyStock (med_policy med) ->
  updateStock now code id body db =
  (Err (SafetyStockViolation (current + delta) (safetyStock (med_policy med))),
   db).
Proof.
  intros Hh Hq Hmed current Hd Hnz H0 Hp. unfold updateStock.
  rewrite Hh, Hq, bind_gets, Hmed, bind_gets. fold current. rewrite Hd.
  destruct (Z.eqb_spec delta 0); [contradiction|].
  cbv zeta. rewrite orZero_id.
  destruct (Z.ltb_spec 0 (safetyStock (med_policy med))); [|lia].
  destruct (Z.ltb_spec (current + delta) (safetyStock (med_policy med)));
    [|lia].
  reflexivity.
Qed.





(** ** Remarks: the inline guard of [updateStock]

    [updateStock] does not call [assertSafetyStock]; it repeats the floor
    test inline, on every non-zero [delta] and on the projection narrowed by
    the request's [lot] and [expiryDate].  The two examples record how it
    differs from the handlers of the inventory controller. *)

Example updateStock_blocks_increment :
  updateStock 5 "PO-1" 1
              (mkStockBody (Some 7%nat) (Some "increment") (Some 5)
                           None None None)
              (mkDB [] [sampleMed] [] [] [] 0)
  = (Err (SafetyStockViolation 5 10), mkDB [] [sampleMed] [] [] [] 0).
Proof. reflexivity. Qed.

Example updateStock_guard_narrowed_by_lot :
  updateStock 5 "PO-1" 1
              (mkStockBody (Some 7%nat) (Some "decrement") (Some 3)
                           (Some "L2") None None)
              twoLotsDB
  = (Err (SafetyStockViolation 2 10), twoLotsDB)
  /\ exists db',
      createAdjust 5 (InventoryCtl.mkMovementBody
                        (Some 7%nat) (Some 1%nat) (Some 3) (Some "OUT")
                        (Some "L2") None None None None None None)
                   twoLotsDB
      = (Ok (mkStockData 65 62 62), db').
Proof. split; [reflexivity | eexists; vm_compute; reflexivity]. Qed.

(* ================================================================== *)
(** * Receipts against a purchase order                                *)
(* ================================================================== *)

Import PurchaseOrderCtl.

Lemma find_po_id id l po :
  find (fun p => Nat.eqb (po_id p) id) l = Some po -> po_id po = id.
Proof.
  intro H. apply find_some in H. destruct H as [_ H].
  apply Nat.eqb_eq, H.
Qed.

Lemma find_replaced id l po po' :
  find (fun p => Nat.eqb (po_id p) id) l = Some po -> po_id po' = id ->
  find (fun p => Nat.eqb (po_id p) id)
       (map (fun p => if Nat.eqb (po_id p) id then po' else p) l) = Some po'.
Proof.
  intros Hf Hid. induction l as [|x l IH]; simpl in *; [discriminate|].
  destruct (Nat.eqb (po_id x) id) eqn:E; simpl.
  - rewrite Hid, Nat.eqb_refl. reflexivity.
  - rewrite E. apply IH, Hf.
Qed.

(** The item loop writes to the ledger only. *)
Lemma receive_loop_frame now po items s r s' :
  forEach items (receiveItem now po) s = (r, s') ->
  purchaseOrders s' = purchaseOrders s.
Proof.
  revert s. induction items as [|it items IH]; intros s H.
  - inversion H; reflexivity.
  - cbn [forEach] in H. unfold bind at 1 in H.
    destruct (receiveItem now po it s) as [[[]|e] s1] eqn:Hit.
    + apply IH in H. rewrite H. clear H.
      unfold receiveItem in Hit. rewrite bind_gets in Hit.
      destruct (match it_medication it with
                | Some m => findMedication m s
                | None => None
                end); [|discriminate Hit].
      destruct (it_medication it); [|discriminate Hit].
      destruct (it_qty it); [|discriminate Hit].
      unfold bind, newObjectId, InventoryTransactionModel.save in Hit.
      destruct (InventoryTransactionModel.validate _);
        inversion Hit; reflexivity.
    + inversion H; subst. clear H.
      unfold receiveItem in Hit. rewrite bind_gets in Hit.
      destruct (match it_medication it with
                | Some m => findMedication m s
                | None => None
                end); [|inversion Hit; reflexivity].
      destruct (it_medication it); [|inversion Hit; reflexivity].
      destruct (it_qty it); [|inversion Hit; reflexivity].
      unfold bind, newObjectId, InventoryTransactionModel.save in Hit.
      destruct (InventoryTransactionModel.validate _);
        inversion Hit; reflexivity.
Qed.

(** The status a successful receipt leaves on the order is decided by the
    receipts committed BEFORE it: the aggregate inside the transaction is
    issued without the session and does not see the movements the
    transaction has just written. *)
Lemma receivePO_status now id items db data db' :
  receivePO now id items db = (Ok data, db') ->
  exists po,
    findPurchaseOrder id db = Some po
    /\ po_status (freshPO data) =
       if allReceived po (getReceivedQtyByMedication id db) then RECEIVED
       else if POStatus_eqb (po_status po) DRAFT then SENT
       else po_status po.
Proof.
  unfold receivePO. destruct items as [|it0 items0]; [discriminate|].
  set (items := it0 :: items0).
  rewrite bind_gets.
  destruct (findPurchaseOrder id db) as [po|] eqn:Hpo; [|discriminate].
  assert (Hid : po_id po = id)
    by exact (find_po_id id (purchaseOrders db) po Hpo).
  destruct (negb _ && negb _); [discriminate|].
  rewrite bind_liftR. destruct (checkItems po items); [|discriminate].
  unfold bind at 1. unfold withTransaction, receiveTransaction.
  unfold bind at 1.
  destruct (forEach items (receiveItem now po) db) as [[[]|e] s1] eqn:Hloop;
    [|discriminate].
  apply receive_loop_frame in Hloop.
  rewrite Hid. intro H. exists po. split; [reflexivity|].
  cbv zeta in H.
  assert (Hfind : forall po',
             po_id po' = id ->
             findPurchaseOrder id
               (setPurchaseOrders
                  (map (fun p => if Nat.eqb (po_id p) (po_id po') then po' else p)
                       (purchaseOrders s1)) s1) = Some po').
  { intros po' Hid'. unfold findPurchaseOrder. cbn [purchaseOrders setPurchaseOrders].
    rewrite Hid', Hloop. exact (find_replaced id _ po po' Hpo Hid'). }
  assert (Hsame : findPurchaseOrder id s1 = Some po).
  { unfold findPurchaseOrder. rewrite Hloop. exact Hpo. }
  destruct (allReceived po (getReceivedQtyByMedication id db)).
  - unfold savePO, modify in H. rewrite bind_gets in H.
    rewrite (Hfind (withStatus po RECEIVED (Some now)) Hid) in H.
    rewrite bind_gets in H. unfold notifyOrderStatus, bind, newObjectId,
      modify, ret in H. inversion H. reflexivity.
  - destruct (POStatus_eqb (po_status po) DRAFT).
    + unfold savePO, modify in H. rewrite bind_gets in H.
      rewrite (Hfind (withStatus po SENT (po_receivedAt po)) Hid) in H.
      rewrite bind_gets in H. unfold notifyOrderStatus, bind, newObjectId,
        modify, ret in H. inversion H. reflexivity.
    + unfold ret at 1 in H. rewrite bind_gets, Hsame in H.
      rewrite bind_gets in H. unfold notifyOrderStatus, bind, newObjectId,
        modify, ret in H. inversion H. reflexivity.
Qed.

(** In particular the first receipt against an order never closes it,
    however much it delivers. *)
Lemma first_receipt_never_closes now id items db data db' po :
  receivePO now id items db = (Ok data, db') ->
  findPurchaseOrder id db = Some po ->
  po_status po = SENT ->
  (forall d, In d (transactions db) -> receivedMatch id d = false) ->
  (exists l, In l (po_lines po) /\ 0 < line_qty l) ->
  po_status (freshPO data) = SENT.
Proof.
  intros Hrun Hpo Hst Hnone (l & Hl & Hq).
  destruct (receivePO_status now id items db data db' Hrun)
    as (po' & Hpo' & Hstatus).
  rewrite Hpo in Hpo'. inversion Hpo'; subst po'.
  assert (Hmap : getReceivedQtyByMedication id db = []).
  { unfold getReceivedQtyByMedication.
    replace (filter (receivedMatch id) (transactions db))
      with (@nil InventoryTransaction); [reflexivity|].
    symmetry. induction (transactions db) as [|d ds IH]; [reflexivity|].
    simpl. rewrite (Hnone d (or_introl eq_refl)).
    apply IH. intros d' Hd'. apply Hnone. right; exact Hd'. }
  rewrite Hmap in Hstatus.
  assert (Hall : allReceived po [] = false).
  { unfold allReceived. apply not_true_is_false. intro Hall.
    rewrite forallb_forall in Hall. specialize (Hall l Hl).
    unfold receivedOf in Hall. simpl in Hall. apply Z.leb_le in Hall. lia. }
  rewrite Hall, Hst in Hstatus. exact Hstatus.
Qed.

Lemma checkItems_unknown po items it m :
  In it items -> it_medication it = Some m ->
  existsb (fun l => Nat.eqb (line_medication l) m) (po_lines po) = false ->
  exists msg, checkItems po items = Err (BadRequest msg).
Proof.
  intros Hin Hm Hex. induction items as [|x items IH]; [destruct Hin|].
  cbn [checkItems].
  destruct (it_medication x) as [mx|] eqn:Hmx; [|eauto].
  destruct (JS.truthyNum (it_qty x)) as [q|]; [|eauto].
  destruct (q <=? 0); [eauto|].
  destruct (existsb (fun l => Nat.eqb (line_medication l) mx) (po_lines po))
    eqn:Hx; [|simpl; eauto].
  simpl. destruct Hin as [-> | Hin]; [|exact (IH Hin)].
  rewrite Hm in Hmx. inversion Hmx; subst mx.
  rewrite Hex in Hx. discriminate Hx.
Qed.

(** A receipt naming an item that is not a line of the order is rejected
    as a whole and leaves the database as it was. *)
Lemma receivePO_rejects_unknown_item now id items db po it m :
  findPurchaseOrder id db = Some po ->
  In it items -> it_medication it = Some m ->
  existsb (fun l => Nat.eqb (line_medication l) m) (po_lines po) = false ->
  exists e, receivePO now id items db = (Err e, db).
Proof.
  intros Hpo Hin Hm Hex. unfold receivePO.
  destruct items as [|it0 items0]; [destruct Hin|].
  rewrite bind_gets, Hpo.
  destruct (negb _ && negb _); [eexists; reflexivity|].
  rewrite bind_liftR.
  destruct (checkItems_unknown po (it0 :: items0) it m Hin Hm Hex) as [msg ->].
  eexists; reflexivity.
Qed.

(** C4, the code at the failing input.  The sample order is [SENT], has one
    line of [10] units and no receipt yet.  Receiving all [10] units
    succeeds and appends the [IN] movement referencing the order; the
    summary then shows [received = 10] and [pending = 0] on every line, yet
    the order is left [SENT]: the completion test ran on the receipts
    committed before this one.  Only a further receipt closes the order. *)
Theorem C4_full_receipt_leaves_order_open :
  exists data db',
    receivePO 5 50 fullReceipt orderDB = (Ok data, db')
    /\ (exists d, transactions db' = [d]
                  /\ tx_type d = IN /\ tx_qty d = 10
                  /\ tx_refType d = "PO" /\ tx_refId d = Some 50%nat)
    /\ receivedSummary data = [mkLineProgress 1 10 10 0]
    /\ Forall (fun lp => pending lp = 0) (receivedSummary data)
    /\ po_status (freshPO data) = SENT
    /\ findPurchaseOrder 50 db' = Some (freshPO data)
    /\ (exists data2 db2,
          receivePO 6 50
            [mkItem (Some 1%nat) (Some 1) None None None] db' = (Ok data2, db2)
          /\ po_status (freshPO data2) = RECEIVED).
Proof.
  do 2 eexists. split; [vm_compute; reflexivity|].
  split; [eexists; repeat split|].
  split; [reflexivity|].
  split; [repeat constructor|].
  split; [reflexivity|].
  split; [reflexivity|].
  do 2 eexists. split; [vm_compute; reflexivity | reflexivity].
Qed.



Lemma C8_invariant_witness :
  Forall wellFormed
         (transactions (serve (CreateOut 5 (sampleOut 45))
                              (serve (CreateIn 1 (sampleOut 60))
                                     (mkDB [] [sampleMed] [] [] [] 0)))).
Proof.
  apply Forall_forall.
  apply (proj2 (proj2 C8_append_validation_and_invariant)).
  apply reach_step, reach_step, reach_init. reflexivity.
Defined.


(* ================================================================== *)
(** * Further properties: what the handlers keep                       *)
(* ================================================================== *)

(** ** Properties kept by every write to the ledger *)

Section LedgerPreservation.

Variable I : DB -> Prop.
Hypothesis I_newObjectId : forall db, I db -> I (snd (newObjectId db)).
Hypothesis I_save :
  forall d db, I db -> I (snd (InventoryTransactionModel.save d db)).

Lemma preserves_ret {A} (a : A) : preserves I (ret a).
Proof. intros db H; exact H. Qed.

Lemma preserves_throw {A} (e : Error) : preserves I (@throw A e).
Proof. intros db H; exact H. Qed.

Lemma preserves_gets {A} (f : DB -> A) : preserves I (gets f).
Proof. intros db H; exact H. Qed.

Lemma preserves_liftR {A} (r : Result A) : preserves I (liftR r).
Proof. intros db H; exact H. Qed.

Lemma preserves_newObjectId : preserves I newObjectId.
Proof. exact I_newObjectId. Qed.

Lemma preserves_save d : preserves I (InventoryTransactionModel.save d).
Proof. exact (I_save d). Qed.

Lemma preserves_bind {A B} (c : M A) (k : A -> M B) :
  preserves I c -> (forall a, preserves I (k a)) -> preserves I (bind c k).
Proof.
  intros Hc Hk db H. unfold bind.
  specialize (Hc db H). destruct (c db) as [[a|e] db1]; simpl in *.
  - apply Hk, Hc.
  - exact Hc.
Qed.

Lemma preserves_withTransaction {A} (fn : DB -> M A) :
  (forall committed, preserves I (fn committed)) ->
  preserves I (withTransaction fn).
Proof.
  intros Hfn db H. unfold withTransaction.
  specialize (Hfn db db H). destruct (fn db db) as [[a|e] db1]; simpl in *; auto.
Qed.

Lemma preserves_forEach {A} (xs : list A) (body : A -> M unit) :
  (forall x, preserves I (body x)) -> preserves I (forEach xs body).
Proof.
  intros Hb. induction xs as [|x xs IH]; simpl.
  - apply preserves_ret.
  - apply preserves_bind; auto.
Qed.

Lemma preserves_modify (f : DB -> DB) :
  (forall db, I db -> I (f db)) -> preserves I (modify f).
Proof. intros Hf db H. apply Hf, H. Qed.

Ltac preserves_step :=
  match goal with
  | |- preserves _ (bind _ _) => apply preserves_bind; [|intro]
  | |- preserves _ (withTransaction _) => apply preserves_withTransaction; intro
  | |- preserves _ (forEach _ _) => apply preserves_forEach; intro
  | |- preserves _ (match ?x with _ => _ end) => destruct x
  | |- preserves _ (ret _) => apply preserves_ret
  | |- preserves _ (throw _) => apply preserves_throw
  | |- preserves _ (gets _) => apply preserves_gets
  | |- preserves _ (liftR _) => apply preserves_liftR
  | |- preserves _ newObjectId => apply preserves_newObjectId
  | |- preserves _ (InventoryTransactionModel.save _) => apply preserves_save
  | |- preserves _ _ => assumption
  end.

Ltac preserves_tac := repeat (cbv zeta; preserves_step).

Lemma preserves_inventory (r : Request) :
  ofInventoryController r = true -> forall db, I db -> I (serve r db).
Proof.
  destruct r; try discriminate; intros _; cbn [serve].
  - change (preserves I (InventoryCtl.createIn now body)).
    unfold InventoryCtl.createIn. preserves_tac.
  - change (preserves I (InventoryCtl.createOut now body)).
    unfold InventoryCtl.createOut. preserves_tac.
  - change (preserves I (InventoryCtl.createAdjust now body)).
    unfold InventoryCtl.createAdjust. preserves_tac.
  - change (preserves I (InventoryCtl.transferBetweenHospitals now body)).
    unfold InventoryCtl.transferBetweenHospitals. preserves_tac.
  - change (preserves I (InventoryCtl.writeOffExpired now body)).
    unfold InventoryCtl.writeOffExpired, InventoryCtl.writeOffLot.
    preserves_tac.
  - change (preserves I (InventoryCtl.kardexByMedication query)).
    unfold InventoryCtl.kardexByMedication. preserves_tac.
Qed.

(** ** Properties also kept by writes of notifications and orders *)

Hypothesis I_setNotifications :
  forall l db, I db -> I (setNotifications l db).
Hypothesis I_setPurchaseOrders :
  forall l db, I db -> I (setPurchaseOrders l db).

Lemma preserves_maybeTriggerReorder code h med :
  preserves I (MedicationCtl.maybeTriggerReorder code h med).
Proof.
  unfold MedicationCtl.maybeTriggerReorder, MedicationCtl.createNotification,
         MedicationCtl.createPurchaseOrder.
  repeat (cbv zeta;
          first [ preserves_step
                | apply preserves_modify; intros;
                  first [apply I_setNotifications | apply I_setPurchaseOrders];
                  assumption ]).
Qed.

Lemma preserves_serve (r : Request) : forall db, I db -> I (serve r db).
Proof.
  destruct (ofInventoryController r) eqn:Hr;
    [exact (preserves_inventory r Hr)|].
  pose proof preserves_maybeTriggerReorder as Hm.
  destruct r; try discriminate; cbn [serve].
  - change (preserves I (MedicationCtl.updateStock now code id body)).
    unfold MedicationCtl.updateStock.
    repeat (cbv zeta; first [preserves_step | apply Hm]).
  - change (preserves I (PurchaseOrderCtl.receivePO now id items)).
    unfold PurchaseOrderCtl.receivePO, PurchaseOrderCtl.receiveTransaction,
           PurchaseOrderCtl.receiveItem, PurchaseOrderCtl.savePO,
           PurchaseOrderCtl.notifyOrderStatus.
    repeat (cbv zeta;
            first [ preserves_step
                  | apply preserves_modify; intros;
                    first [apply I_setNotifications | apply I_setPurchaseOrders];
                    assumption ]).
  - change (preserves I (PurchaseOrderCtl.markSent id)).
    unfold PurchaseOrderCtl.markSent, PurchaseOrderCtl.savePO,
           PurchaseOrderCtl.notifyOrderStatus.
    repeat (cbv zeta;
            first [ preserves_step
                  | apply preserves_modify; intros;
                    first [apply I_setNotifications | apply I_setPurchaseOrders];
                    assumption ]).
Qed.

End LedgerPreservation.

Lemma extends_refl db : extends db db.
Proof.
  split; [exists []; rewrite app_nil_r; reflexivity | split; reflexivity].
Qed.

(** X1.  Serving any request only adds movements at the end of the ledger:
    no committed movement is changed, removed or reordered, and the
    medication and supplier collections are left as they were. *)
Theorem X1_ledger_is_append_only :
  forall r db,
    (exists new, transactions (serve r db) = transactions db ++ new)
    /\ medications (serve r db) = medications db
    /\ suppliers (serve r db) = suppliers db.
Proof.
  intros r db.
  apply (preserves_serve (extends db)); try apply extends_refl.
  - intros s H; exact H.
  - intros d s ([new Hn] & Hm & Hs).
    unfold InventoryTransactionModel.save.
    destruct (InventoryTransactionModel.validate d); simpl.
    + split; [|split; assumption].
      exists (new ++ [d]). rewrite Hn, app_assoc. reflexivity.
    + split; [exists new; exact Hn | split; assumption].
  - intros l s H; exact H.
  - intros l s H; exact H.
Qed.

Lemma inventory_same_events (r : Request) (db : DB) :
  ofInventoryController r = true -> sameEvents db (serve r db).
Proof.
  intro Hr.
  assert (Hnew : forall s, sameEvents db s ->
                           sameEvents db (snd (newObjectId s)))
    by (intros s H; exact H).
  assert (Hsave : forall d s, sameEvents db s ->
                    sameEvents db (snd (InventoryTransactionModel.save d s))).
  { intros d s H. unfold InventoryTransactionModel.save.
    destruct (InventoryTransactionModel.validate d); exact H. }
  apply (preserves_inventory (sameEvents db) Hnew Hsave r Hr db).
  split; reflexivity.
Qed.

(** X2.  The handlers of the inventory controller (in, out, adjust,
    transfer, write-off, kardex) never write a notification or a purchase
    order: none of them runs the reorder evaluation. *)
Theorem X2_inventory_handlers_raise_no_event :
  forall r db,
    ofInventoryController r = true ->
    notifications (serve r db) = notifications db
    /\ purchaseOrders (serve r db) = purchaseOrders db.
Proof.
  intros r db Hr. exact (inventory_same_events r db Hr).
Qed.

Lemma X2_inventory_handlers_witness :
  notifications (serve (CreateOut 5 (sampleOut 45)) sampleDB) = []
  /\ purchaseOrders (serve (CreateOut 5 (sampleOut 45)) sampleDB) = [].
Proof.
  apply (X2_inventory_handlers_raise_no_event
           (CreateOut 5 (sampleOut 45)) sampleDB eq_refl).
Defined.

(* ================================================================== *)
(** * Further properties: a failed request writes nothing             *)
(* ================================================================== *)



























(* ================================================================== *)
(** * Further properties: receipts against a purchase order            *)
(* ================================================================== *)

Lemma receiveItem_ok now po it s s1 :
  receiveItem now po it s = (Ok tt, s1) ->
  exists d, s1 = inserted d s /\ isReceiptOf now po it d.
Proof.
  unfold receiveItem. rewrite bind_gets.
  destruct (it_medication it) as [m|] eqn:Hm; [|discriminate].
  destruct (findMedication m s) as [med|]; [|discriminate].
  destruct (it_qty it) as [q|] eqn:Hq; [|discriminate].
  unfold bind, newObjectId, InventoryTransactionModel.save.
  destruct (InventoryTransactionModel.validate _); [|discriminate].
  intro H. inversion H. eexists. split; [reflexivity|].
  unfold isReceiptOf. cbn. repeat split; auto.
Qed.

(** The item loop, when it completes, has inserted one movement per item,
    in the order of the items. *)
Lemma receive_loop_ok now po items :
  forall s s1,
    forEach items (receiveItem now po) s = (Ok tt, s1) ->
    exists docs,
      transactions s1 = transactions s ++ docs
      /\ Forall2 (isReceiptOf now po) items docs
      /\ purchaseOrders s1 = purchaseOrders s
      /\ notifications s1 = notifications s
      /\ medications s1 = medications s
      /\ suppliers s1 = suppliers s.
Proof.
  induction items as [|it items IH]; intros s s1 H.
  - inversion H. exists []. rewrite app_nil_r. repeat split; constructor.
  - cbn [forEach] in H. unfold bind at 1 in H.
    destruct (receiveItem now po it s) as [[[]|e] s0] eqn:Hit; [|discriminate].
    destruct (receiveItem_ok now po it s s0 Hit) as (d & -> & Hd).
    destruct (IH _ _ H) as (docs & Htx & Hall & Hpo & Hn & Hm & Hs).
    exists (d :: docs). cbn [transactions inserted] in Htx.
    rewrite Htx, <- app_assoc. repeat split; auto.
Qed.

Lemma find_other id id2 l po' :
  po_id po' = id2 -> id <> id2 ->
  find (fun p => Nat.eqb (po_id p) id)
       (map (fun p => if Nat.eqb (po_id p) id2 then po' else p) l)
  = find (fun p => Nat.eqb (po_id p) id) l.
Proof.
  intros Hid Hne. induction l as [|x l IH]; simpl; [reflexivity|].
  destruct (Nat.eqb_spec (po_id x) id2) as [Hx|Hx].
  - rewrite Hid. destruct (Nat.eqb_spec id2 id); [congruence|].
    destruct (Nat.eqb_spec (po_id x) id); [congruence|]. exact IH.
  - destruct (Nat.eqb (po_id x) id); [reflexivity | exact IH].
Qed.

(** Every way a receipt can end. *)
Lemma receivePO_cases now id items db r db' :
  receivePO now id items db = (r, db') ->
  (exists e, r = Err e /\ db' = db)
  \/ (exists po docs data,
        r = Ok data
        /\ findPurchaseOrder id db = Some po
        /\ po_status po <> CANCELLED
        /\ checkItems po items = Ok tt
        /\ freshPO data = orderAfterReceipt now po db
        /\ receivedSummary data =
           receivedTotals (freshPO data) (getReceivedQtyByMedication id db')
        /\ transactions db' = transactions db ++ docs
        /\ Forall2 (isReceiptOf now po) items docs
        /\ medications db' = medications db
        /\ suppliers db' = suppliers db
        /\ (purchaseOrders db' = purchaseOrders db
            \/ purchaseOrders db' =
               map (fun p => if Nat.eqb (po_id p) id
                             then orderAfterReceipt now po db else p)
                   (purchaseOrders db))
        /\ findPurchaseOrder id db' = Some (freshPO data)
        /\ exists n,
            notifications db' = notifications db ++ [n]
            /\ n_type n = "ORDER_STATUS"
            /\ n_purchaseOrder n = Some id
            /\ n_hospital n = po_hospital po).
Proof.
  unfold receivePO.
  destruct items as [|it0 items0];
    [intro H; inversion H; left; eauto|].
  set (items := it0 :: items0).
  rewrite bind_gets.
  destruct (findPurchaseOrder id db) as [po|] eqn:Hpo;
    [|intro H; inversion H; left; eauto].
  assert (Hid : po_id po = id)
    by exact (find_po_id id (purchaseOrders db) po Hpo).
  destruct (negb _ && negb _) eqn:Hst; [intro H; inversion H; left; eauto|].
  assert (Hnc : po_status po <> CANCELLED).
  { intro Hc. rewrite Hc in Hst. discriminate Hst. }
  rewrite bind_liftR.
  destruct (checkItems po items) as [[]|e] eqn:Hck;
    [|intro H; inversion H; left; eauto].
  unfold bind at 1. unfold withTransaction, receiveTransaction.
  unfold bind at 1.
  destruct (forEach items (receiveItem now po) db) as [[[]|e] s1] eqn:Hloop;
    [|intro H; inversion H; left; eauto].
  destruct (receive_loop_ok now po items db s1 Hloop)
    as (docs & Htx & Hall & Hpos & Hn & Hm & Hs).
  rewrite Hid. intro H. right. exists po, docs.
  unfold orderAfterReceipt. rewrite Hid.
  assert (Hfind : forall po',
             po_id po' = id ->
             findPurchaseOrder id
               (setPurchaseOrders
                  (map (fun p => if Nat.eqb (po_id p) (po_id po') then po' else p)
                       (purchaseOrders s1)) s1) = Some po').
  { intros po' Hid'. unfold findPurchaseOrder.
    cbn [purchaseOrders setPurchaseOrders].
    rewrite Hid', Hpos. exact (find_replaced id _ po po' Hpo Hid'). }
  assert (Hsame : findPurchaseOrder id s1 = Some po).
  { unfold findPurchaseOrder. rewrite Hpos. exact Hpo. }
  cbv zeta in H.
  destruct (allReceived po (getReceivedQtyByMedication id db)).
  - unfold savePO, modify in H. rewrite bind_gets in H.
    rewrite (Hfind (withStatus po RECEIVED (Some now)) Hid) in H.
    rewrite bind_gets in H.
    unfold notifyOrderStatus, bind, newObjectId, modify, ret in H.
    inversion H; subst r db'; clear H.
    eexists. split; [reflexivity|].
    repeat match goal with |- _ /\ _ => split end;
      try reflexivity; try assumption;
      try solve [eexists; cbn; rewrite ?Hn, ?Hid; repeat split; reflexivity].
    + right. cbn. rewrite Hid, Hpos. reflexivity.
    + unfold findPurchaseOrder. cbn. rewrite Hid, Hpos.
      exact (find_replaced id _ po (withStatus po RECEIVED (Some now))
                           Hpo Hid).
  - destruct (POStatus_eqb (po_status po) DRAFT).
    + unfold savePO, modify in H. rewrite bind_gets in H.
      rewrite (Hfind (withStatus po SENT (po_receivedAt po)) Hid) in H.
      rewrite bind_gets in H.
      unfold notifyOrderStatus, bind, newObjectId, modify, ret in H.
      inversion H; subst r db'; clear H.
      eexists. split; [reflexivity|].
      repeat match goal with |- _ /\ _ => split end;
        try reflexivity; try assumption;
        try solve [eexists; cbn; rewrite ?Hn, ?Hid; repeat split; reflexivity].
      * right. cbn. rewrite Hid, Hpos. reflexivity.
      * unfold findPurchaseOrder. cbn. rewrite Hid, Hpos.
        exact (find_replaced id _ po (withStatus po SENT (po_receivedAt po))
                             Hpo Hid).
    + unfold ret at 1 in H. rewrite bind_gets, Hsame in H.
      rewrite bind_gets in H.
      unfold notifyOrderStatus, bind, newObjectId, modify, ret in H.
      inversion H; subst r db'; clear H.
      eexists. split; [reflexivity|].
      repeat match goal with |- _ /\ _ => split end;
        try reflexivity; try assumption;
        try (left; exact Hpos); try exact Hsame;
        try solve [eexists; cbn; rewrite ?Hn, ?Hid; repeat split; reflexivity].
Qed.







(** Every way [markSent] can end. *)
Lemma markSent_cases id db r db' :
  markSent id db = (r, db') ->
  (exists e, r = Err e /\ db' = db)
  \/ (exists po,
        findPurchaseOrder id db = Some po /\ po_status po = DRAFT
        /\ r = Ok (withStatus po SENT (po_receivedAt po))
        /\ transactions db' = transactions db
        /\ purchaseOrders db' =
           map (fun p => if Nat.eqb (po_id p) id
                         then withStatus po SENT (po_receivedAt po) else p)
               (purchaseOrders db)
        /\ medications db' = medications db
        /\ exists n,
            notifications db' = notifications db ++ [n]
            /\ n_type n = "ORDER_STATUS"
            /\ n_purchaseOrder n = Some id
            /\ n_hospital n = po_hospital po).
Proof.
  unfold markSent. rewrite bind_gets.
  destruct (findPurchaseOrder id db) as [po|] eqn:Hpo;
    [|intro H; inversion H; left; eauto].
  assert (Hid : po_id po = id)
    by exact (find_po_id id (purchaseOrders db) po Hpo).
  destruct (po_status po) eqn:Hst; simpl;
    try (intro H; inversion H; left; eauto; fail).
  cbv zeta. unfold savePO, notifyOrderStatus, bind, modify, newObjectId, ret.
  intro H. inversion H. right. exists po.
  split; [reflexivity|]. split; [exact Hst|]. split; [reflexivity|].
  split; [reflexivity|]. cbn. rewrite Hid.
  split; [reflexivity|]. split; [reflexivity|].
  eexists. repeat split; reflexivity.
Qed.

Lemma find_app_some {T} (f : T -> bool) (l l' : list T) (x : T) :
  find f l = Some x -> find f (l ++ l') = Some x.
Proof.
  induction l as [|y l IH]; simpl; [discriminate|].
  destruct (f y); auto.
Qed.

Lemma ordersGrow_maybeTriggerReorder code h med db0 :
  preserves (ordersGrow db0) (maybeTriggerReorder code h med).
Proof.
  intros db [new Hnew].
  destruct (reorder_summary code h med db)
    as (res & db' & Hrun & _ & _ & _ & _ & _ & _ & _ & Hpo & Hnp).
  rewrite Hrun. cbn [snd]. unfold ordersGrow.
  destruct (purchaseOrderId res) as [pid|].
  - destruct (Hpo pid eq_refl) as (sup & _ & ->).
    rewrite Hnew, <- app_assoc. eauto.
  - rewrite (Hnp eq_refl). eauto.
Qed.

Lemma ordersGrow_updateStock now code id body db :
  ordersGrow db (snd (updateStock now code id body db)).
Proof.
  assert (Hnew : forall s, ordersGrow db s -> ordersGrow db (snd (newObjectId s)))
    by (intros s H; exact H).
  assert (Hsave : forall d s, ordersGrow db s ->
                    ordersGrow db (snd (InventoryTransactionModel.save d s))).
  { intros d s H. unfold InventoryTransactionModel.save.
    destruct (InventoryTransactionModel.validate d); exact H. }
  assert (Hpres : preserves (ordersGrow db) (updateStock now code id body)).
  { unfold updateStock.
    repeat (cbv zeta;
            match goal with
            | |- preserves _ (bind _ _) => apply preserves_bind; [|intro]
            | |- preserves _ (withTransaction _) =>
                apply preserves_withTransaction; intro
            | |- preserves _ (match ?x with _ => _ end) => destruct x
            | |- preserves _ (ret _) => apply preserves_ret
            | |- preserves _ (throw _) => apply preserves_throw
            | |- preserves _ (gets _) => apply preserves_gets
            | |- preserves _ newObjectId =>
                apply (preserves_newObjectId _ Hnew)
            | |- preserves _ (InventoryTransactionModel.save _) =>
                apply (preserves_save _ Hsave)
            | |- preserves _ (maybeTriggerReorder _ _ _) =>
                apply ordersGrow_maybeTriggerReorder
            end). }
  apply Hpres. exists []. rewrite app_nil_r. reflexivity.
Qed.

(** X5.  Orders only move forward.  Whatever request is served, an order
    found under an id before is found under that id afterwards, with the
    same code, site, supplier and lines, and its status is unchanged, or
    went from [DRAFT] to [SENT], or went from a status other than
    [CANCELLED] to [RECEIVED]; in particular a [RECEIVED] order stays
    [RECEIVED] and a [CANCELLED] order stays [CANCELLED]. *)
Theorem X5_orders_only_move_forward :
  forall r db id po,
    findPurchaseOrder id db = Some po ->
    exists po',
      findPurchaseOrder id (serve r db) = Some po'
      /\ po_id po' = po_id po /\ po_code po' = po_code po
      /\ po_hospital po' = po_hospital po /\ po_supplier po' = po_supplier po
      /\ po_lines po' = po_lines po
      /\ statusStep (po_status po) (po_status po')
      /\ (po_status po = RECEIVED -> po_status po' = RECEIVED)
      /\ (po_status po = CANCELLED -> po_status po' = CANCELLED).
Proof.
  intros r db id po Hpo.
  assert (Hsame : forall db',
             (exists new, purchaseOrders db' = purchaseOrders db ++ new) ->
             exists po',
               findPurchaseOrder id db' = Some po'
               /\ po_id po' = po_id po /\ po_code po' = po_code po
               /\ po_hospital po' = po_hospital po
               /\ po_supplier po' = po_supplier po
               /\ po_lines po' = po_lines po
               /\ statusStep (po_status po) (po_status po')
               /\ (po_status po = RECEIVED -> po_status po' = RECEIVED)
               /\ (po_status po = CANCELLED -> po_status po' = CANCELLED)).
  { intros db' [new Hnew]. exists po. split.
    - unfold findPurchaseOrder. rewrite Hnew. apply find_app_some, Hpo.
    - repeat split; auto. left; reflexivity. }
  assert (Hrepl : forall db' id2 po2 s ra,
             findPurchaseOrder id2 db = Some po2 ->
             statusStep (po_status po2) s ->
             (po_status po2 = RECEIVED -> s = RECEIVED) ->
             (po_status po2 = CANCELLED -> s = CANCELLED) ->
             purchaseOrders db' =
             map (fun p => if Nat.eqb (po_id p) id2
                           then withStatus po2 s ra else p)
                 (purchaseOrders db) ->
             exists po',
               findPurchaseOrder id db' = Some po'
               /\ po_id po' = po_id po /\ po_code po' = po_code po
               /\ po_hospital po' = po_hospital po
               /\ po_supplier po' = po_supplier po
               /\ po_lines po' = po_lines po
               /\ statusStep (po_status po) (po_status po')
               /\ (po_status po = RECEIVED -> po_status po' = RECEIVED)
               /\ (po_status po = CANCELLED -> po_status po' = CANCELLED)).
  { intros db' id2 po2 s ra Hpo2 Hstep Hrec Hcan Hmap.
    assert (Hid2 : po_id po2 = id2)
      by exact (find_po_id id2 (purchaseOrders db) po2 Hpo2).
    destruct (Nat.eq_dec id id2) as [Heq|Hne].
    - rewrite <- Heq in Hpo2, Hmap, Hid2. clear Heq.
      assert (po2 = po) by congruence. subst po2.
      exists (withStatus po s ra). split.
      + unfold findPurchaseOrder. rewrite Hmap.
        exact (find_replaced id _ po (withStatus po s ra) Hpo Hid2).
      + cbn. repeat split; auto.
    - exists po. split.
      + unfold findPurchaseOrder. rewrite Hmap.
        rewrite (find_other id id2 (purchaseOrders db) (withStatus po2 s ra)
                            Hid2 Hne).
        exact Hpo.
      + repeat split; auto. left; reflexivity. }
  destruct (ofInventoryController r) eqn:Hinv.
  { apply Hsame. exists [].
    rewrite (proj2 (inventory_same_events r db Hinv)).
    rewrite app_nil_r. reflexivity. }
  destruct r; try discriminate Hinv; cbn [serve].
  - apply Hsame. exact (ordersGrow_updateStock now code id0 body db).
  - destruct (receivePO now id0 items db) as [res db'] eqn:Hrun. cbn [snd].
    destruct (receivePO_cases now id0 items db res db' Hrun)
      as [(e & _ & ->)
         | (po2 & docs & data & _ & Hpo2 & Hnc & _ & _ & _ & _ & _ & _ & _
            & [Hpos | Hpos] & _)].
    + apply Hsame. exists []. rewrite app_nil_r. reflexivity.
    + apply Hsame. exists []. rewrite app_nil_r. exact Hpos.
    + unfold orderAfterReceipt in Hpos.
      destruct (allReceived po2 _).
      * apply (Hrepl db' id0 po2 RECEIVED (Some now) Hpo2); auto.
        -- right; right. auto.
        -- intro Hc. contradiction.
      * destruct (POStatus_eqb (po_status po2) DRAFT) eqn:Hd.
        -- apply (Hrepl db' id0 po2 SENT (po_receivedAt po2) Hpo2); auto.
           ++ right; left. split; [|reflexivity].
              destruct (po_status po2); try discriminate Hd; reflexivity.
           ++ intro Hc. rewrite Hc in Hd. discriminate Hd.
           ++ intro Hc. contradiction.
        -- assert (Hself : withStatus po2 (po_status po2) (po_receivedAt po2)
                           = po2) by (destruct po2; reflexivity).
           rewrite <- Hself in Hpos.
           apply (Hrepl db' id0 po2 (po_status po2) (po_receivedAt po2) Hpo2);
             auto.
           left; reflexivity.
  - destruct (markSent id0 db) as [res db'] eqn:Hrun. cbn [snd].
    destruct (markSent_cases id0 db res db' Hrun)
      as [(e & _ & ->) | (po2 & Hpo2 & Hst & _ & _ & Hpos & _)].
    + apply Hsame. exists []. rewrite app_nil_r. reflexivity.
    + apply (Hrepl db' id0 po2 SENT (po_receivedAt po2) Hpo2); auto.
      * right; left. auto.
      * intro Hc. congruence.
      * intro Hc. congruence.
Qed.

Lemma X5_orders_witness :
  exists po',
    findPurchaseOrder 50 (serve (ReceivePO 5 50 fullReceipt) orderDB) = Some po'
    /\ po_lines po' = po_lines sampleOrder
    /\ statusStep SENT (po_status po').
Proof.
  destruct (X5_orders_only_move_forward (ReceivePO 5 50 fullReceipt) orderDB
              50%nat sampleOrder eq_refl)
    as (po' & Hf & _ & _ & _ & _ & Hl & Hs & _).
  exists po'. auto.
Defined.

(* ================================================================== *)
(** * Further properties: the [$group] stage                           *)
(* ================================================================== *)

Section GroupBy.

Context {T K : Type}.
Variable eqb : K -> K -> bool.
Hypothesis eqb_spec : forall a b, eqb a b = true <-> a = b.
Variable key : T -> K.
Variable expr : T -> Z.










End GroupBy.






(* ================================================================== *)
(** * Further properties: the effect of a commit on the projection     *)
(* ================================================================== *)













(** * Further properties: the floor as an invariant of the guarded routes *)







Lemma serve_kardex query db : serve (Kardex query) db = db.
Proof.
  cbn [serve]. unfold kardexByMedication.
  destruct (k_hospital query); [destruct (k_medication query)|]; reflexivity.
Qed.





(** * Further properties: pagination of the list endpoints *)

Lemma lim_bounds (limit : option Z) : 1 <= Pagination.lim limit <= 200.
Proof. unfold Pagination.lim. lia. Qed.

Lemma pg_bounds (page : option Z) : 1 <= Pagination.pg page.
Proof. unfold Pagination.pg. lia. Qed.

Lemma ceilDiv_spec (total L : Z) :
  0 < L ->
  (Pagination.ceilDiv total L - 1) * L < total
  <= Pagination.ceilDiv total L * L.
Proof.
  intro HL. unfold Pagination.ceilDiv.
  pose proof (Z.div_mod (total + L - 1) L ltac:(lia)) as Hd.
  pose proof (Z.mod_pos_bound (total + L - 1) L HL) as Hm.
  nia.
Qed.

Lemma firstn_plus {A} (n m : nat) (l : list A) :
  firstn (n + m) l = firstn n l ++ firstn m (skipn n l).
Proof.
  revert l. induction n as [|n IH]; intros [|x l]; simpl; auto.
  - rewrite firstn_nil. reflexivity.
  - rewrite IH. reflexivity.
Qed.

Lemma concat_pages {A} (L n : nat) (l : list A) :
  List.concat (map (fun k => firstn L (skipn (k * L) l)) (seq 0 n))
  = firstn (n * L) l.
Proof.
  induction n as [|n IH]; [reflexivity|].
  rewrite seq_S, map_app, concat_app, IH. simpl.
  rewrite app_nil_r, (Nat.add_comm L (n * L)), firstn_plus. reflexivity.
Qed.

Lemma skip_of_page (k : nat) (limit : option Z) :
  Z.to_nat (Pagination.skip (Some (Z.of_nat (S k))) limit)
  = (k * Z.to_nat (Pagination.lim limit))%nat.
Proof.
  pose proof (lim_bounds limit) as Hl.
  unfold Pagination.skip, Pagination.pg, Pagination.parsedOr.
  destruct (Z.eqb_spec (Z.of_nat (S k)) 0) as [H0|_]; [lia|].
  rewrite Z.max_l by lia.
  replace (Z.of_nat (S k) - 1) with (Z.of_nat k) by lia.
  rewrite Z2Nat.inj_mul by lia. rewrite Nat2Z.id. reflexivity.
Qed.

Lemma respond_partition {A} (page limit : option Z) (sorted : list A) :
  List.concat
    (map (fun k => Pagination.data
                     (Pagination.respond (Some (Z.of_nat (S k))) limit sorted))
         (seq 0 (Z.to_nat (Pagination.meta_pages
                             (Pagination.respond page limit sorted)))))
  = sorted.
Proof.
  pose proof (lim_bounds limit) as Hl.
  pose proof (ceilDiv_spec (Z.of_nat (List.length sorted))
                           (Pagination.lim limit) ltac:(lia)) as Hc.
  unfold Pagination.respond.
  cbn [Pagination.meta_pages Pagination.data].
  rewrite (map_ext _ (fun k => firstn (Z.to_nat (Pagination.lim limit))
              (skipn (k * Z.to_nat (Pagination.lim limit)) sorted))).
  - rewrite concat_pages. apply firstn_all2. nia.
  - intro k. rewrite skip_of_page. reflexivity.
Qed.

(** X10.  The page every list endpoint answers with
    ([listTransactions], [listPOs], [searchMedicationByName]): the page
    number is at least [1] and the limit between [1] and [200] whatever was
    asked; [total] counts all matching documents; [pages] is the ceiling of
    [total / limit]; the page holds at most [limit] rows and none beyond the
    last page; and pages [1 .. pages] of the same limit, put end to end,
    are exactly the matching documents in their sort order - none lost,
    none repeated. *)
Theorem X10_pages_partition_the_result :
  forall (A : Type) (page limit : option Z) (sorted : list A),
    let p := Pagination.respond page limit sorted in
    1 <= Pagination.meta_page p
    /\ 1 <= Pagination.meta_limit p <= 200
    /\ Pagination.meta_total p = Z.of_nat (List.length sorted)
    /\ (Pagination.meta_pages p - 1) * Pagination.meta_limit p
       < Pagination.meta_total p
       <= Pagination.meta_pages p * Pagination.meta_limit p
    /\ Z.of_nat (List.length (Pagination.data p)) <= Pagination.meta_limit p
    /\ (Pagination.meta_pages p < Pagination.meta_page p ->
        Pagination.data p = [])
    /\ List.concat (map (fun k => Pagination.data
                               (Pagination.respond (Some (Z.of_nat (S k)))
                                                   limit sorted))
                   (seq 0 (Z.to_nat (Pagination.meta_pages p))))
       = sorted.
Proof.
  intros A page limit sorted p.
  pose proof (lim_bounds limit) as Hl.
  pose proof (pg_bounds page) as Hp.
  pose proof (ceilDiv_spec (Z.of_nat (List.length sorted))
                           (Pagination.lim limit) ltac:(lia)) as Hc.
  subst p. unfold Pagination.respond.
  cbn [Pagination.meta_page Pagination.meta_limit Pagination.meta_total
       Pagination.meta_pages Pagination.data].
  split; [exact Hp|]. split; [exact Hl|]. split; [reflexivity|].
  split; [exact Hc|].
  split; [|split].
  - rewrite length_firstn. lia.
  - intro Hlast. rewrite skipn_all2; [apply firstn_nil|].
    unfold Pagination.skip. nia.
  - exact (respond_partition page limit sorted).
Qed.





(** * Further properties: the middlewares in front of the handlers *)

Lemma substring_all (s : string) : String.substring 0 (String.length s) s = s.
Proof. induction s as [|c s IH]; simpl; [|rewrite IH]; reflexivity. Qed.

Lemma prefix_split (p h : string) :
  String.prefix p h = true ->
  h = (p ++ String.substring (String.length p)
                             (String.length h - String.length p) h)%string.
Proof.
  revert h. induction p as [|a p IH]; intros h Hp.
  - simpl. rewrite Nat.sub_0_r, substring_all. reflexivity.
  - destruct h as [|b h]; [discriminate Hp|]. simpl in Hp.
    destruct (Ascii.ascii_dec a b) as [->|]; [|discriminate Hp].
    simpl. f_equal. apply IH, Hp.
Qed.

Lemma prefix_append (p t : string) : String.prefix p (p ++ t) = true.
Proof.
  induction p as [|a p IH]; simpl; [destruct t; reflexivity|].
  destruct (Ascii.ascii_dec a a); [exact IH | contradiction].
Qed.

Lemma substring_append (p t : string) :
  String.substring (String.length p)
                   (String.length (p ++ t) - String.length p) (p ++ t) = t.
Proof.
  induction p as [|a p IH]; simpl.
  - rewrite Nat.sub_0_r. apply substring_all.
  - exact IH.
Qed.

Lemma bearerToken_spec (header token : string) :
  AuthMiddleware.bearerToken header = Some token
  <-> header = ("Bearer " ++ token)%string.
Proof.
  unfold AuthMiddleware.bearerToken. split.
  - destruct (String.prefix "Bearer " header) eqn:Hp; [|discriminate].
    intro H. inversion H; subst token.
    exact (prefix_split "Bearer " header Hp).
  - intros ->. rewrite (prefix_append "Bearer " token).
    f_equal. exact (substring_append "Bearer " token).
Qed.

(** X12.  [requireAuth] lets a request through exactly when its
    [Authorization] header is [Bearer ] followed by a non-empty token that
    [jwt.verify] accepts, and then [req.user] is the verified payload; every
    other request - no header, another scheme, an empty token, a token that
    does not verify - is answered [401]. *)
Theorem X12_require_auth_needs_a_verified_bearer_token :
  forall verify authorization,
    (forall payload,
        AuthMiddleware.requireAuth verify authorization
        = AuthMiddleware.next payload
        <-> exists token,
            authorization = Some ("Bearer " ++ token)%string
            /\ token <> ""%string
            /\ verify token = Some payload)
    /\ ((exists payload,
            AuthMiddleware.requireAuth verify authorization
            = AuthMiddleware.next payload)
        \/ AuthMiddleware.requireAuth verify authorization
           = AuthMiddleware.status 401).
Proof.
  intros verify authorization. split.
  - intro payload. unfold AuthMiddleware.requireAuth. cbv zeta. split.
    + destruct (AuthMiddleware.bearerToken (JS.dflt ""%string authorization))
        as [token|] eqn:Hb; [|discriminate].
      destruct token as [|c token]; [discriminate|]. cbn [JS.truthyStr].
      destruct (verify (String c token)) as [p|] eqn:Hv; [|discriminate].
      intro H. inversion H; subst p.
      apply bearerToken_spec in Hb.
      exists (String c token). split; [|split; [discriminate | exact Hv]].
      destruct authorization as [h|]; cbn [JS.dflt] in Hb.
      * rewrite Hb. reflexivity.
      * discriminate Hb.
    + intros (token & -> & Hne & Hv). cbn [JS.dflt].
      destruct (bearerToken_spec ("Bearer " ++ token) token) as [_ Hb].
      rewrite (Hb eq_refl).
      destruct token as [|c token]; [contradiction|]. cbn [JS.truthyStr].
      rewrite Hv. reflexivity.
  - unfold AuthMiddleware.requireAuth. cbv zeta.
    destruct (JS.truthyStr _) as [token|]; [|right; reflexivity].
    destruct (verify token) as [p|]; [left; eauto | right; reflexivity].
Qed.

Lemma requireAuth_next_inv verify authorization user :
  AuthMiddleware.requireAuth verify authorization = AuthMiddleware.next user ->
  exists token,
    authorization = Some ("Bearer " ++ token)%string
    /\ token <> ""%string /\ verify token = Some user.
Proof.
  unfold AuthMiddleware.requireAuth. cbv zeta.
  destruct (AuthMiddleware.bearerToken (JS.dflt ""%string authorization))
    as [token|] eqn:Hb; [|discriminate].
  destruct token as [|c token]; [discriminate|]. cbn [JS.truthyStr].
  destruct (verify (String c token)) as [p|] eqn:Hv; [|discriminate].
  intro H. inversion H; subst p.
  apply bearerToken_spec in Hb.
  exists (String c token). split; [|split; [discriminate | exact Hv]].
  destruct authorization as [h|]; cbn [JS.dflt] in Hb.
  - rewrite Hb. reflexivity.
  - discriminate Hb.
Qed.

Lemma requireRole_next_inv (roles : list string) user :
  AuthMiddleware.requireRole roles (Some user) = AuthMiddleware.next tt ->
  AuthMiddleware.isSuperUser user = true
  \/ In (AuthMiddleware.role user) roles.
Proof.
  unfold AuthMiddleware.requireRole.
  destruct (AuthMiddleware.isSuperUser user); [left; reflexivity|].
  destruct (JS.includes roles (AuthMiddleware.role user)) eqn:Hinc;
    [|discriminate].
  intros _. right. unfold JS.includes in Hinc.
  apply existsb_exists in Hinc. destruct Hinc as (x & Hx & Heq).
  apply String.eqb_eq in Heq. subst x. exact Hx.
Qed.

(** X13.  Behind its route, a request changes the store only when it comes
    with a bearer token that [jwt.verify] accepts and whose payload is a
    superuser or carries the role [admin] or [manager]; in that case the
    handler ran.  A request without such a token, or of a user with another
    role, leaves every collection as it was.  (The kardex route asks for no
    role, and never writes.) *)
Theorem X13_only_privileged_users_change_the_store :
  forall verify authorization r db,
    throughRoute verify authorization r db <> db ->
    exists token user,
      authorization = Some ("Bearer " ++ token)%string
      /\ token <> ""%string
      /\ verify token = Some user
      /\ (AuthMiddleware.isSuperUser user = true
          \/ AuthMiddleware.role user = "admin"%string
          \/ AuthMiddleware.role user = "manager"%string)
      /\ throughRoute verify authorization r db = serve r db.
Proof.
  intros verify authorization r db Hch. unfold throughRoute in *.
  destruct (AuthMiddleware.requireAuth verify authorization) as [user|code]
    eqn:Hauth; [|contradiction].
  destruct (requireAuth_next_inv verify authorization user Hauth)
    as (token & Hh & Hne & Hv).
  exists token, user. split; [exact Hh|]. split; [exact Hne|].
  split; [exact Hv|].
  destruct (routeRoles r) as [roles|] eqn:Hroles.
  - destruct (AuthMiddleware.requireRole roles (Some user)) as [[]|code]
      eqn:Hrole; [|contradiction].
    split; [|reflexivity].
    assert (Hr : roles = ["admin"; "manager"]%string)
      by (destruct r; cbn in Hroles; congruence).
    subst roles.
    destruct (requireRole_next_inv _ user Hrole) as [Hs | [Ha | [Hm | []]]];
      auto.
  - destruct r; try discriminate Hroles.
    rewrite serve_kardex in Hch. contradiction.
Qed.

Lemma X13_privileged_witness :
  exists token user,
    Some "Bearer t"%string = Some ("Bearer " ++ token)%string
    /\ token <> ""%string
    /\ (fun _ => Some (AuthMiddleware.mkPayload "manager" false)) token
       = Some user
    /\ (AuthMiddleware.isSuperUser user = true
        \/ AuthMiddleware.role user = "admin"%string
        \/ AuthMiddleware.role user = "manager"%string)
    /\ throughRoute (fun _ => Some (AuthMiddleware.mkPayload "manager" false))
                    (Some "Bearer t"%string)
                    (CreateOut 5 (sampleOut 30)) sampleDB
       = serve (CreateOut 5 (sampleOut 30)) sampleDB.
Proof.
  apply (X13_only_privileged_users_change_the_store
           (fun _ => Some (AuthMiddleware.mkPayload "manager" false))
           (Some "Bearer t"%string) (CreateOut 5 (sampleOut 30)) sampleDB).
  vm_compute. intro H. inversion H.
Defined.

(** * Further properties: the search pattern *)

Lemma special_not_backslash (c : Ascii.ascii) :
  isRegexSpecial c = false -> Ascii.eqb c backslash = false.
Proof.
  intro H. destruct (Ascii.eqb_spec c backslash) as [->|]; [|reflexivity].
  vm_compute in H. discriminate H.
Qed.

(** X14.  [escapeRegex] turns any search term into a pattern that is a
    plain literal for exactly that term: no syntax character is left
    unescaped, no backslash is left dangling, and reading the pattern back
    gives the term.  The pattern is at least as long as the term and at
    most twice as long, and it is the term itself exactly when the term
    contains none of the characters [. * + ? ^ $ { } ( ) | [ ] \]. *)
Theorem X14_escaped_term_is_a_literal_pattern :
  forall str,
    literalOf (escapeRegex str) = Some str
    /\ (String.length str <= String.length (escapeRegex str)
        <= 2 * String.length str)%nat
    /\ (escapeRegex str = str <-> plainText str = true).
Proof.
  induction str as [|c rest (IHlit & IHlen & IHid)];
    [repeat split; auto|].
  cbn [escapeRegex plainText].
  destruct (isRegexSpecial c) eqn:Hc.
  - split; [|split].
    + cbn [literalOf]. rewrite Ascii.eqb_refl, Hc, IHlit. reflexivity.
    + cbn [String.length]. lia.
    + split; [|discriminate].
      intro H. apply (f_equal String.length) in H. cbn [String.length] in H.
      lia.
  - split; [|split].
    + cbn [literalOf]. rewrite (special_not_backslash c Hc), Hc, IHlit.
      reflexivity.
    + cbn [String.length]. lia.
    + cbn [negb andb]. rewrite <- IHid. split; intro H.
      * inversion H as [H']. rewrite !H'. reflexivity.
      * rewrite H. reflexivity.
Qed.

(** * Further properties: the expired lots *)






(** * Further properties: the effect of a stock update *)





(** * Further properties: receipts accumulate, order events are announced *)







(** * Further properties: a write-off is not repeated *)








(** * Further properties: the opening balance of a bounded replay *)




(** * Further properties: the effect of a write-off on the projection *)






(** * Further properties: reading a movement back *)



(** * Further properties: instances *)

Lemma X10_pages_witness :
  List.concat
    (map (fun k => Pagination.data
                     (Pagination.respond (Some (Z.of_nat (S k))) (Some 2)
                                         [1; 2; 3; 4; 5]))
         (seq 0 (Z.to_nat (Pagination.meta_pages
                             (Pagination.respond None (Some 2)
                                                 [1; 2; 3; 4; 5])))))
  = [1; 2; 3; 4; 5].
Proof.
  exact (proj2 (proj2 (proj2 (proj2 (proj2 (proj2
           (X10_pages_partition_the_result Z None (Some 2)
                                           [1; 2; 3; 4; 5]))))))).
Defined.

Lemma X12_require_auth_witness :
  AuthMiddleware.requireAuth
    (fun _ => Some (AuthMiddleware.mkPayload "viewer" false))
    (Some "Bearer t"%string)
  = AuthMiddleware.next (AuthMiddleware.mkPayload "viewer" false).
Proof.
  apply (proj1 (X12_require_auth_needs_a_verified_bearer_token
                  (fun _ => Some (AuthMiddleware.mkPayload "viewer" false))
                  (Some "Bearer t"%string))).
  exists "t"%string. split; [reflexivity|]. split; [discriminate|reflexivity].
Defined.

Lemma X14_escape_witness :
  literalOf (escapeRegex "a.b*"%string) = Some "a.b*"%string.
Proof.
  exact (proj1 (X14_escaped_term_is_a_literal_pattern "a.b*"%string)).
Defined.


Lemma X1_append_only_witness :
  exists new,
    transactions (serve (CreateOut 5 (sampleOut 30)) sampleDB)
    = transactions sampleDB ++ new.
Proof.
  exact (proj1 (X1_ledger_is_append_only (CreateOut 5 (sampleOut 30))
                                         sampleDB)).
Defined.
